(** * nodejs-monitoring: a shallow embedding of the monitoring core

    The development follows the TypeScript sources file by file:

    - [Js]: the handful of ECMAScript built-ins the code relies on
      ([Math.round], [parseInt], [Array.prototype.slice], [push]/[shift],
      [||] on numbers, completions of awaited promises);
    - the record types of [types.ts];
    - [RequestTracker] (collectors/RequestTracker.ts);
    - [BuiltInProbes]: the four probes of probes/BuiltInProbes.ts;
    - [Collector]: [getMemoryMetrics] of collectors/SystemMetrics.ts on raw
      readings;
    - [MonitoringService] (MonitoringService.ts).

    Numbers.  A JavaScript number is an IEEE-754 double.  Counters and
    millisecond clock readings are integer valued and every operation the
    code performs on them ([++], [--], [+], [-], comparison) is exact below
    2^53, so they are modelled in [Z].  Readings that carry fractions (CPU
    usage, thresholds, the error rate) are modelled by the rational they
    denote, in [Q], with exact arithmetic.  The one place where the
    rounding of a double operation decides an answer is the product
    [threshold * 0.8] of the memory and CPU probes, on readings at that
    very boundary: [Double] gives the rounding of binary64 and
    [BuiltInProbesDouble] the two probes with the product so rounded.

    Time and the operating system.  [Date.now()], [Math.random()] and the
    readings of [SystemMetrics] are inputs of the functions that use them.

    The event loop.  Every callback of the sources runs to completion before
    the next one starts, so a timer callback or a request hook is one atomic
    state transition. *)

From Stdlib Require Import ZArith QArith Qround Qpower Qabs Lqa Lia Ascii.
From stdpp Require Import base gmap strings list pretty.

Close Scope Q_scope.
Local Open Scope Z_scope.

(** ** ECMAScript built-ins *)

Module Js.

(** [Math.round(x)]: the integer nearest to [x], ties towards +infinity. *)
Definition Math_round (x : Q) : Z := Qfloor (x + (1 # 2))%Q.

(** [arr.push(x)] on the array held in a field. *)
Definition push {A} (arr : list A) (x : A) : list A := arr ++ [x].

(** [arr.shift()], the removed element dropped. *)
Definition shift {A} (arr : list A) : list A := tail arr.

(** [arr.length] as a number. *)
Definition length {A} (arr : list A) : Z := Z.of_nat (List.length arr).

(** [arr.slice(start)] with one argument: a negative [start] counts from
    the end, and the index is clamped to the array. *)
Definition slice {A} (arr : list A) (start : Z) : list A :=
  let len := length arr in
  let k := if start <? 0 then Z.max (len + start) 0 else Z.min start len in
  drop (Z.to_nat k) arr.

(** [arr[i]]: [undefined] out of range. *)
Definition index {A} (arr : list A) (i : Z) : option A :=
  if i <? 0 then None else arr !! Z.to_nat i.

(** [arr.reduce((a, b) => a + b, 0)]. *)
Definition sum (arr : list Z) : Z := fold_left Z.add arr 0.

(** What a [throw] or a rejected promise carries: an instance of [Error]
    with its [message], or any other value, kept as the text [String(v)]
    gives for it. *)
Inductive Thrown : Type :=
| ThrownError (message : string)
| ThrownValue (text : string).

(** The outcome of evaluating an expression, or of awaiting a promise. *)
Inductive Completion (A : Type) : Type :=
| Normal (a : A)
| Throw (e : Thrown).
Arguments Normal {A} a.
Arguments Throw {A} e.

(** *** [parseInt(string)] without a radix *)

(** The white space [parseInt] skips, as far as it is ASCII; the white
    space above code point 127 (U+00A0, U+FEFF, U+2028 and the like) is not
    recognised. *)
Definition isWhiteSpace (c : ascii) : bool :=
  let n := nat_of_ascii c in
  ((9 <=? n) && (n <=? 13))%nat || (n =? 32)%nat.

Fixpoint trimStart (s : string) : string :=
  match s with
  | String c rest => if isWhiteSpace c then trimStart rest else s
  | EmptyString => s
  end.

(** The value of a digit in the given radix, if it is one. *)
Definition digitValue (radix : Z) (c : ascii) : option Z :=
  let n := Z.of_nat (nat_of_ascii c) in
  let v :=
    if (48 <=? n) && (n <=? 57) then Some (n - 48)
    else if (97 <=? n) && (n <=? 122) then Some (n - 87)
    else if (65 <=? n) && (n <=? 90) then Some (n - 55)
    else None in
  match v with
  | Some d => if d <? radix then Some d else None
  | None => None
  end.

(** Reads the longest prefix of digits; [None] when there is none. *)
Fixpoint digits (radix : Z) (s : string) (acc : option Z) : option Z :=
  match s with
  | String c rest =>
      match digitValue radix c with
      | Some d => digits radix rest (Some (default 0 acc * radix + d))
      | None => acc
      end
  | EmptyString => acc
  end.

(** [None] is NaN. *)
Definition parseInt (input : string) : option Z :=
  let s := trimStart input in
  let '(sign, s) :=
    match s with
    | String "-" rest => (-1, rest)
    | String "+" rest => (1, rest)
    | _ => (1, s)
    end in
  let '(radix, s) :=
    match s with
    | String "0" (String "x" rest) | String "0" (String "X" rest) => (16, rest)
    | _ => (10, s)
    end in
  match digits radix s None with
  | Some n => Some (sign * n)
  | None => None
  end.

(** [x || d] on a number: NaN and zero are falsy. *)
Definition orDefault (x : option Z) (d : Z) : Z :=
  match x with
  | None => d
  | Some 0 => d
  | Some n => n
  end.

(** [String(undefined)], what [parseInt] sees for an absent argument. *)
Definition toStringOpt (s : option string) : string := default "undefined" s.

(** Sequencing of completions: the rest runs only after a normal one. *)
Definition andThen {A B} (c : Completion A) (k : A -> Completion B) : Completion B :=
  match c with
  | Normal a => k a
  | Throw e => Throw e
  end.

(** [try { body } catch (error) { handler }] around an expression. *)
Definition catch {A} (body : Completion A) (handler : Thrown -> Completion A)
  : Completion A :=
  match body with
  | Normal a => Normal a
  | Throw e => handler e
  end.

(** [Math.floor(x)]. *)
Definition Math_floor (x : Q) : Z := Qfloor x.

(** The integer part of [x], towards zero. *)
Definition truncate (x : Q) : Z :=
  if Qle_bool 0 x then Qfloor x else Qceiling x.

(** [x % y] for [y] other than zero: the remainder has the sign of [x]. *)
Definition rem (x y : Q) : Q := (x - y * inject_Z (truncate (x / y)))%Q.

(** [x / y] when it is a finite number: a division by zero gives
    [Infinity] or [NaN], here [None]. *)
Definition divide (x y : Q) : option Q :=
  if Qeq_bool y 0 then None else Some (x / y)%Q.

End Js.

(** ** Binary64 arithmetic

    A finite double is a rational [m * 2^e] with [|m| < 2^53] and [e] at
    least -1074.  [round] takes a rational to the nearest one, ties to the
    even [m]; the exponent has no upper limit here, so a result of 2^1024 or
    more stands where the runtime has [Infinity]. *)

Module Double.

Definition pow2 (k : Z) : Q := Qpower 2 k.

(** The integer part of the binary logarithm of a positive rational. *)
Definition ilog2 (x : Q) : Z :=
  let k := Z.log2 (Qnum x) - Z.log2 (Zpos (Qden x)) in
  if Qle_bool (pow2 k) x then k else k - 1.

(** The exponent of the binade of [x]; subnormal numbers share -1022. *)
Definition exponent (x : Q) : Z := Z.max (ilog2 (Qabs x)) (-1022).

(** The distance between neighbouring doubles around [x]. *)
Definition ulp (x : Q) : Q := pow2 (exponent x - 52).

(** The nearest integer, a half going to the even one. *)
Definition roundEven (y : Q) : Z :=
  let f := Qfloor y in
  match (y - inject_Z f ?= 1 # 2)%Q with
  | Lt => f
  | Gt => f + 1
  | Eq => if Z.even f then f else f + 1
  end.

(** The double nearest to [x]: what a number literal denotes and what an
    arithmetic operation returns for the exact result [x]. *)
Definition round (x : Q) : Q :=
  if Qeq_bool x 0 then 0%Q else (inject_Z (roundEven (x / ulp x)) * ulp x)%Q.

(** [x * y] on doubles. *)
Definition times (x y : Q) : Q := round (x * y)%Q.

(** The literal [0.8]. *)
Definition point8 : Q := round 0.8%Q.

(** The smallest positive double, 2^-1074. *)
Definition minSubnormal : Q := pow2 (-1074).

End Double.

(** ** types.ts *)

Inductive Status : Type := healthy | warning | critical.

#[export] Instance Status_eq_dec : EqDecision Status.
Proof. solve_decision. Defined.

(** The values the built-in probes put in [metadata]. *)
Inductive MetaValue : Type :=
| MetaString (s : string)
| MetaBoolean (b : bool)
| MetaNumber (x : Q).

Module ProbeResult.
Record t : Type := mk {
  status : Status;
  message : option string;
  value : option Q;
  metadata : option (list (string * MetaValue));
}.
End ProbeResult.

(** [check: () => Promise<ProbeResult>].  A check reads the world it runs
    in, of type [W], and the promise it returns settles normally or with a
    rejection; a check that throws before returning a promise is the same
    [Throw] for a caller that awaits inside [try]. *)
Module CustomProbe.
Record t (W : Type) : Type := mk {
  name : string;
  check : W -> Js.Completion ProbeResult.t;
  interval : option Z;
}.
Arguments mk {W} name check interval.
Arguments name {W} _.
Arguments check {W} _ _.
Arguments interval {W} _.
End CustomProbe.

Module Heap.
Record t : Type := mk { used : Z; total : Z; percentage : Z }.
End Heap.

Module Memory.
Record t : Type := mk { used : Z; total : Z; percentage : Z; heap : Heap.t }.
End Memory.

Module Cpu.
Record t : Type := mk { usage : Q; loadAverage : list Q }.
End Cpu.

Module Process.
Record t : Type := mk { pid : Z; version : string; platform : string; arch : string }.
End Process.

Module Requests.
Record t : Type := mk { total : Z; active : Z; averageResponseTime : Z }.
End Requests.

Module Errors.
Record t : Type := mk { total : Z; rate : Q }.
End Errors.

Module HealthMetrics.
Record t : Type := mk {
  timestamp : Z;
  uptime : Z;
  memory : Memory.t;
  cpu : Cpu.t;
  process : Process.t;
  requests : Requests.t;
  errors : Errors.t;
}.
End HealthMetrics.

Module AlertThresholds.
Record t : Type := mk {
  memoryUsage : option Q;
  cpuUsage : option Q;
  responseTime : option Q;
  errorRate : option Q;
}.
End AlertThresholds.

(** ** collectors/SystemMetrics.ts, as the interface its callers use *)

Class SystemMetrics (W : Type) : Type := {
  getMemoryMetrics : W -> Memory.t;
  getCpuMetrics : W -> Cpu.t;
  getProcessMetrics : W -> Process.t;
}.

(** The conversion of a number in a template literal, [`${usage}`]. *)
Class NumberToString : Type := numberToString : Q -> string.

(** What the uptime and disk probes ask of the Node runtime:
    [process.uptime()] in seconds, [process.cwd()] and
    [fs.statSync(path)], the last two of which can throw. *)
Class NodeRuntime (W : Type) : Type := {
  process_uptime : W -> Q;
  process_cwd : W -> Js.Completion string;
  fs_statSync : W -> string -> Js.Completion unit;
}.

(** *** collectors/SystemMetrics.ts, [getMemoryMetrics] on raw readings *)

Module Collector.

(** [os.totalmem()], [os.freemem()] and the heap fields of
    [process.memoryUsage()], in bytes. *)
Record Raw : Type := mkRaw {
  totalmem : Z;
  freemem : Z;
  heapUsed : Z;
  heapTotal : Z;
}.

(** [None] when a percentage is not a finite number, which takes a total
    of zero.  The percentages are rounded from the exact ratio; the runtime
    rounds the double [(used / total) * 100], which can fall on the other
    side of a half (29 of 200 gives 14 there and 15 here). *)
Definition getMemoryMetrics (raw : Raw) : option Memory.t :=
  let totalMemory := totalmem raw in
  let freeMemory := freemem raw in
  let usedMemory := totalMemory - freeMemory in
  match Js.divide (inject_Z usedMemory) (inject_Z totalMemory),
        Js.divide (inject_Z (heapUsed raw)) (inject_Z (heapTotal raw)) with
  | Some usedRatio, Some heapRatio =>
      Some
        {| Memory.used := Js.Math_round (inject_Z usedMemory / 1024 / 1024)%Q;
           Memory.total := Js.Math_round (inject_Z totalMemory / 1024 / 1024)%Q;
           Memory.percentage := Js.Math_round (usedRatio * 100)%Q;
           Memory.heap :=
             {| Heap.used := Js.Math_round (inject_Z (heapUsed raw) / 1024 / 1024)%Q;
                Heap.total := Js.Math_round (inject_Z (heapTotal raw) / 1024 / 1024)%Q;
                Heap.percentage := Js.Math_round (heapRatio * 100)%Q |} |}
  | _, _ => None
  end.

End Collector.

(** ** collectors/RequestTracker.ts *)

Module RequestTracker.

Record t : Type := mk {
  totalRequests : Z;
  activeRequests : Z;
  totalResponseTime : Z;
  errors : Z;
  requestTimes : list Z;
  errorTimes : list Z;
}.

(** The field initialisers of the class. *)
Definition fresh : t :=
  {| totalRequests := 0; activeRequests := 0; totalResponseTime := 0;
     errors := 0; requestTimes := []; errorTimes := [] |}.

(** [now] is the reading of [Date.now()] and [suffix] the nine characters
    cut out of [Math.random().toString(36)]. *)
Definition startRequest (now : Z) (suffix : string) (s : t) : string * t :=
  let s := {| totalRequests := totalRequests s + 1;
              activeRequests := activeRequests s;
              totalResponseTime := totalResponseTime s;
              errors := errors s;
              requestTimes := requestTimes s;
              errorTimes := errorTimes s |} in
  let s := {| totalRequests := totalRequests s;
              activeRequests := activeRequests s + 1;
              totalResponseTime := totalResponseTime s;
              errors := errors s;
              requestTimes := requestTimes s;
              errorTimes := errorTimes s |} in
  ("req_" +:+ pretty now +:+ "_" +:+ suffix, s).

Definition endRequest (requestId : string) (startTime : Z) (now : Z) (s : t) : t :=
  let active := activeRequests s - 1 in
  let responseTime := now - startTime in
  let total := totalResponseTime s + responseTime in
  let times := Js.push (requestTimes s) responseTime in
  let times := if Js.length times >? 100 then Js.shift times else times in
  {| totalRequests := totalRequests s;
     activeRequests := active;
     totalResponseTime := total;
     errors := errors s;
     requestTimes := times;
     errorTimes := errorTimes s |}.

Definition recordError (now : Z) (s : t) : t :=
  let times := Js.push (errorTimes s) now in
  let times := if Js.length times >? 100 then Js.shift times else times in
  {| totalRequests := totalRequests s;
     activeRequests := activeRequests s;
     totalResponseTime := totalResponseTime s;
     errors := errors s + 1;
     requestTimes := requestTimes s;
     errorTimes := times |}.

Module Metrics.
Record t : Type := mk {
  total : Z;
  active : Z;
  averageResponseTime : Z;
  errors : Errors.t;
}.
End Metrics.

Definition getMetrics (now : Z) (s : t) : Metrics.t :=
  let fiveMinutesAgo := now - 5 * 60 * 1000 in
  let recentErrors := List.filter (fun time => time >? fiveMinutesAgo) (errorTimes s) in
  {| Metrics.total := totalRequests s;
     Metrics.active := activeRequests s;
     Metrics.averageResponseTime :=
       if Js.length (requestTimes s) >? 0
       then Js.Math_round
              (inject_Z (Js.sum (requestTimes s)) / inject_Z (Js.length (requestTimes s)))%Q
       else 0;
     Metrics.errors :=
       {| Errors.total := errors s;
          Errors.rate := (inject_Z (Js.length recentErrors) / 5)%Q |} |}.

(** A call of the host on the tracker, with the inputs it reads. *)
Inductive Call : Type :=
| StartRequest (now : Z) (suffix : string)
| EndRequest (requestId : string) (startTime : Z) (now : Z).

Definition call (c : Call) (s : t) : t :=
  match c with
  | StartRequest now suffix => (startRequest now suffix s).2
  | EndRequest requestId startTime now => endRequest requestId startTime now s
  end.

(** The calls of a sequence, one after the other. *)
Definition run (calls : list Call) (s : t) : t :=
  fold_left (fun s c => call c s) calls s.

Definition isStart (c : Call) : bool :=
  match c with StartRequest _ _ => true | EndRequest _ _ _ => false end.

Definition starts (calls : list Call) : Z :=
  Js.length (List.filter isStart calls).

Definition ends (calls : list Call) : Z :=
  Js.length (List.filter (fun c => negb (isStart c)) calls).

(** A call of any of the three mutators. *)
Inductive Op : Type :=
| OpStart (now : Z) (suffix : string)
| OpEnd (requestId : string) (startTime : Z) (now : Z)
| OpError (now : Z).

Definition applyOp (o : Op) (s : t) : t :=
  match o with
  | OpStart now suffix => (startRequest now suffix s).2
  | OpEnd requestId startTime now => endRequest requestId startTime now s
  | OpError now => recordError now s
  end.

Definition applyAll (ops : list Op) (s : t) : t :=
  fold_left (fun s o => applyOp o s) ops s.

(** The response times the [endRequest] calls of a sequence measure. *)
Definition latencies (ops : list Op) : list Z :=
  omap (fun o => match o with OpEnd _ startTime now => Some (now - startTime) | _ => None end)
       ops.

(** The times the [recordError] calls of a sequence read. *)
Definition errorLog (ops : list Op) : list Z :=
  omap (fun o => match o with OpError now => Some now | _ => None end) ops.

Definition countStarts (ops : list Op) : Z :=
  Js.length (List.filter (fun o => match o with OpStart _ _ => true | _ => false end) ops).

Definition countEnds (ops : list Op) : Z :=
  Js.length (List.filter (fun o => match o with OpEnd _ _ _ => true | _ => false end) ops).

End RequestTracker.

(** ** probes/BuiltInProbes.ts *)

Module BuiltInProbes.
Section Probes.
Context {W : Type} {sys : SystemMetrics W} {show : NumberToString}.

(** [usage > threshold], on numbers. *)
Definition gt (x y : Q) : bool := negb (Qle_bool x y).

(** A parameter with the default value [80]: it applies when the argument
    is [undefined]. *)
Definition createMemoryProbe (threshold : option Q) : CustomProbe.t W :=
  let threshold := default 80%Q threshold in
  {| CustomProbe.name := "memory_usage";
     CustomProbe.check := fun w =>
       let metrics := getMemoryMetrics w in
       let usage := inject_Z (Memory.percentage metrics) in
       if gt usage threshold then
         Js.Normal
           {| ProbeResult.status := critical;
              ProbeResult.message :=
                Some ("Memory usage is " +:+ numberToString usage +:+ "% (threshold: "
                      +:+ numberToString threshold +:+ "%)");
              ProbeResult.value := Some usage;
              ProbeResult.metadata := None |}
       else if gt usage (threshold * 0.8)%Q then
         Js.Normal
           {| ProbeResult.status := warning;
              ProbeResult.message :=
                Some ("Memory usage is " +:+ numberToString usage
                      +:+ "% (approaching threshold)");
              ProbeResult.value := Some usage;
              ProbeResult.metadata := None |}
       else
         Js.Normal
           {| ProbeResult.status := healthy;
              ProbeResult.message :=
                Some ("Memory usage is " +:+ numberToString usage +:+ "%");
              ProbeResult.value := Some usage;
              ProbeResult.metadata := None |};
     CustomProbe.interval := None |}.

Definition createCpuProbe (threshold : option Q) : CustomProbe.t W :=
  let threshold := default 80%Q threshold in
  {| CustomProbe.name := "cpu_usage";
     CustomProbe.check := fun w =>
       let metrics := getCpuMetrics w in
       let usage := Cpu.usage metrics in
       if gt usage threshold then
         Js.Normal
           {| ProbeResult.status := critical;
              ProbeResult.message :=
                Some ("CPU usage is " +:+ numberToString usage +:+ "% (threshold: "
                      +:+ numberToString threshold +:+ "%)");
              ProbeResult.value := Some usage;
              ProbeResult.metadata := None |}
       else if gt usage (threshold * 0.8)%Q then
         Js.Normal
           {| ProbeResult.status := warning;
              ProbeResult.message :=
                Some ("CPU usage is " +:+ numberToString usage
                      +:+ "% (approaching threshold)");
              ProbeResult.value := Some usage;
              ProbeResult.metadata := None |}
       else
         Js.Normal
           {| ProbeResult.status := healthy;
              ProbeResult.message :=
                Some ("CPU usage is " +:+ numberToString usage +:+ "%");
              ProbeResult.value := Some usage;
              ProbeResult.metadata := None |};
     CustomProbe.interval := None |}.

End Probes.

Section RuntimeProbes.
Context {W : Type} {node : NodeRuntime W} {show : NumberToString}.

Definition uptimeHours (uptime : Q) : Z := Js.Math_floor (uptime / 3600)%Q.

Definition uptimeMinutes (uptime : Q) : Z := Js.Math_floor (Js.rem uptime 3600 / 60)%Q.

Definition createUptimeProbe : CustomProbe.t W :=
  {| CustomProbe.name := "uptime";
     CustomProbe.check := fun w =>
       let uptime := process_uptime w in
       let hours := uptimeHours uptime in
       let minutes := uptimeMinutes uptime in
       Js.Normal
         {| ProbeResult.status := healthy;
            ProbeResult.message :=
              Some ("Application has been running for "
                    +:+ numberToString (inject_Z hours) +:+ "h "
                    +:+ numberToString (inject_Z minutes) +:+ "m");
            ProbeResult.value := Some uptime;
            ProbeResult.metadata := None |};
     CustomProbe.interval := None |}.

Definition createDiskSpaceProbe : CustomProbe.t W :=
  {| CustomProbe.name := "disk_space";
     CustomProbe.check := fun w =>
       Js.catch
         (Js.andThen (process_cwd w) (fun dir =>
          Js.andThen (fs_statSync w dir) (fun stats =>
          Js.andThen (process_cwd w) (fun path =>
          Js.Normal
            {| ProbeResult.status := healthy;
               ProbeResult.message := Some "Disk space check completed";
               ProbeResult.value := None;
               ProbeResult.metadata :=
                 Some [("path", MetaString path); ("accessible", MetaBoolean true)] |}))))
         (fun error =>
            Js.Normal
              {| ProbeResult.status := critical;
                 ProbeResult.message := Some "Cannot access disk space";
                 ProbeResult.value := None;
                 ProbeResult.metadata :=
                   Some [("error",
                          MetaString
                            match error with
                            | Js.ThrownError message => message
                            | Js.ThrownValue _ => "Unknown error"
                            end)] |});
     CustomProbe.interval := None |}.

End RuntimeProbes.
End BuiltInProbes.

(** *** The memory and CPU probes with the product in binary64

    The same two functions, with [threshold * 0.8] as the runtime computes
    it.  Thresholds and readings are the rationals that doubles denote; the
    comparisons are exact on them. *)

Module BuiltInProbesDouble.
Section Probes.
Context {W : Type} {sys : SystemMetrics W} {show : NumberToString}.

Definition createMemoryProbe (threshold : option Q) : CustomProbe.t W :=
  let threshold := default 80%Q threshold in
  {| CustomProbe.name := "memory_usage";
     CustomProbe.check := fun w =>
       let metrics := getMemoryMetrics w in
       let usage := inject_Z (Memory.percentage metrics) in
       if BuiltInProbes.gt usage threshold then
         Js.Normal
           {| ProbeResult.status := critical;
              ProbeResult.message :=
                Some ("Memory usage is " +:+ numberToString usage +:+ "% (threshold: "
                      +:+ numberToString threshold +:+ "%)");
              ProbeResult.value := Some usage;
              ProbeResult.metadata := None |}
       else if BuiltInProbes.gt usage (Double.times threshold Double.point8) then
         Js.Normal
           {| ProbeResult.status := warning;
              ProbeResult.message :=
                Some ("Memory usage is " +:+ numberToString usage
                      +:+ "% (approaching threshold)");
              ProbeResult.value := Some usage;
              ProbeResult.metadata := None |}
       else
         Js.Normal
           {| ProbeResult.status := healthy;
              ProbeResult.message :=
                Some ("Memory usage is " +:+ numberToString usage +:+ "%");
              ProbeResult.value := Some usage;
              ProbeResult.metadata := None |};
     CustomProbe.interval := None |}.

Definition createCpuProbe (threshold : option Q) : CustomProbe.t W :=
  let threshold := default 80%Q threshold in
  {| CustomProbe.name := "cpu_usage";
     CustomProbe.check := fun w =>
       let metrics := getCpuMetrics w in
       let usage := Cpu.usage metrics in
       if BuiltInProbes.gt usage threshold then
         Js.Normal
           {| ProbeResult.status := critical;
              ProbeResult.message :=
                Some ("CPU usage is " +:+ numberToString usage +:+ "% (threshold: "
                      +:+ numberToString threshold +:+ "%)");
              ProbeResult.value := Some usage;
              ProbeResult.metadata := None |}
       else if BuiltInProbes.gt usage (Double.times threshold Double.point8) then
         Js.Normal
           {| ProbeResult.status := warning;
              ProbeResult.message :=
                Some ("CPU usage is " +:+ numberToString usage
                      +:+ "% (approaching threshold)");
              ProbeResult.value := Some usage;
              ProbeResult.metadata := None |}
       else
         Js.Normal
           {| ProbeResult.status := healthy;
              ProbeResult.message :=
                Some ("CPU usage is " +:+ numberToString usage +:+ "%");
              ProbeResult.value := Some usage;
              ProbeResult.metadata := None |};
     CustomProbe.interval := None |}.

End Probes.
End BuiltInProbesDouble.

(** ** MonitoringService.ts *)

Module MonitoringService.

(** The body of a response: [res.status(code).json(body)]. *)
Module Response.
Record t (B : Type) : Type := mk { statusCode : Z; body : B }.
Arguments mk {B} statusCode body.
Arguments statusCode {B} _.
Arguments body {B} _.
End Response.

Module HealthBody.
Record t : Type := mk {
  status : Status;
  timestamp : Z;
  uptime : Z;
  metrics : HealthMetrics.t;
  probes : gmap string ProbeResult.t;
  version : string;
}.
End HealthBody.

Module HistoryBody.
Record t : Type := mk {
  metrics : list HealthMetrics.t;
  count : Z;
  latest : option HealthMetrics.t;
}.
End HistoryBody.

(** The clock readings one call of [collectMetrics] takes, in the order it
    takes them: inside [requestTracker.getMetrics()], for [timestamp] and
    for [uptime].  *)
Module Clock.
Record t : Type := mk { atGetMetrics : Z; atTimestamp : Z; atUptime : Z }.
End Clock.

(** *** The probe-result table and the code that runs against it

    [executeProbe] awaits a promise inside [try]/[catch] and writes to
    [this.probeResults]: a computation over the table that ends in a
    completion. *)

Definition M (A : Type) : Type :=
  gmap string ProbeResult.t -> Js.Completion A * gmap string ProbeResult.t.

Definition ret {A} (a : A) : M A := fun table => (Js.Normal a, table).

Definition bind {A B} (m : M A) (k : A -> M B) : M B :=
  fun table =>
    match m table with
    | (Js.Normal a, table') => k a table'
    | (Js.Throw e, table') => (Js.Throw e, table')
    end.

(** [await p] for a promise that settles with [c]. *)
Definition await {A} (c : Js.Completion A) : M A := fun table => (c, table).

(** [try { body } catch (error) { handler }]. *)
Definition tryCatch {A} (body : M A) (handler : Js.Thrown -> M A) : M A :=
  fun table =>
    match body table with
    | (Js.Normal a, table') => (Js.Normal a, table')
    | (Js.Throw e, table') => handler e table'
    end.

(** [this.probeResults.set(name, result)]. *)
Definition probeResults_set (name : string) (result : ProbeResult.t) : M unit :=
  fun table => (Js.Normal tt, <[name := result]> table).

Declare Scope js_scope.
Delimit Scope js_scope with js.
Notation "'let*' x ':=' m 'in' k" := (bind m (fun x => k))
  (at level 10, x name, m at level 100, k at level 200) : js_scope.

(** [error instanceof Error ? error.message : "Unknown error"]. *)
Definition errorText (error : Js.Thrown) : string :=
  match error with
  | Js.ThrownError message => message
  | Js.ThrownValue _ => "Unknown error"
  end.

Section Service.
Context {W : Type} {sys : SystemMetrics W}.

Record t : Type := mk {
  customProbes : list (CustomProbe.t W);
  probeResults : gmap string ProbeResult.t;
  metricsHistory : list HealthMetrics.t;
  startTime : Z;
}.

(** The closure [executeProbe] of [startProbeExecution], for one probe. *)
Definition executeProbe (probe : CustomProbe.t W) (w : W) : M unit :=
  tryCatch
    (let* result := await (CustomProbe.check probe w) in
     probeResults_set (CustomProbe.name probe) result)%js
    (fun error =>
       probeResults_set (CustomProbe.name probe)
         {| ProbeResult.status := critical;
            ProbeResult.message := Some ("Probe execution failed: " +:+ errorText error);
            ProbeResult.value := None;
            ProbeResult.metadata := None |}).

(** The closure [executeProbe] of [addProbe]: the same text again. *)
Definition addProbe_executeProbe (probe : CustomProbe.t W) (w : W) : M unit :=
  tryCatch
    (let* result := await (CustomProbe.check probe w) in
     probeResults_set (CustomProbe.name probe) result)%js
    (fun error =>
       probeResults_set (CustomProbe.name probe)
         {| ProbeResult.status := critical;
            ProbeResult.message := Some ("Probe execution failed: " +:+ errorText error);
            ProbeResult.value := None;
            ProbeResult.metadata := None |}).

(** [probe.interval || 60000]. *)
Definition intervalOf (probe : CustomProbe.t W) : Z :=
  Js.orDefault (CustomProbe.interval probe) 60000.

(** Runs a table computation against the service's own table. *)
Definition onTable (m : M unit) (s : t) : Js.Completion unit * t :=
  let '(c, table) := m (probeResults s) in
  (c, {| customProbes := customProbes s;
         probeResults := table;
         metricsHistory := metricsHistory s;
         startTime := startTime s |}).

(** One execution of a probe that [startProbeExecution] started, at the
    moment its check settles in world [w]: the immediate one or one fired
    by [setInterval(executeProbe, interval)]. *)
Definition probeExecution (probe : CustomProbe.t W) (w : W) (s : t)
  : Js.Completion unit * t :=
  onTable (executeProbe probe w) s.

(** [addProbe(probe)]: the push, and the execution it starts at once, at
    the moment the check settles in world [w]. *)
Definition addProbe (probe : CustomProbe.t W) (w : W) (s : t)
  : Js.Completion unit * t :=
  let s := {| customProbes := Js.push (customProbes s) probe;
              probeResults := probeResults s;
              metricsHistory := metricsHistory s;
              startTime := startTime s |} in
  onTable (addProbe_executeProbe probe w) s.

Definition collectMetrics (w : W) (tracker : RequestTracker.t) (clock : Clock.t) (s : t)
  : HealthMetrics.t :=
  let memory := getMemoryMetrics w in
  let cpu := getCpuMetrics w in
  let process := getProcessMetrics w in
  let requestMetrics := RequestTracker.getMetrics (Clock.atGetMetrics clock) tracker in
  {| HealthMetrics.timestamp := Clock.atTimestamp clock;
     HealthMetrics.uptime := (Clock.atUptime clock - startTime s) / 1000;
     HealthMetrics.memory := memory;
     HealthMetrics.cpu := cpu;
     HealthMetrics.process := process;
     HealthMetrics.requests :=
       {| Requests.total := RequestTracker.Metrics.total requestMetrics;
          Requests.active := RequestTracker.Metrics.active requestMetrics;
          Requests.averageResponseTime :=
            RequestTracker.Metrics.averageResponseTime requestMetrics |};
     HealthMetrics.errors := RequestTracker.Metrics.errors requestMetrics |}.

(** The callback [startMetricsCollection] hands to [setInterval]. *)
Definition metricsCollectionTick
    (w : W) (tracker : RequestTracker.t) (clock : Clock.t) (s : t) : t :=
  let metrics := collectMetrics w tracker clock s in
  let history := Js.push (metricsHistory s) metrics in
  let history := if Js.length history >? 100 then Js.shift history else history in
  {| customProbes := customProbes s;
     probeResults := probeResults s;
     metricsHistory := history;
     startTime := startTime s |}.

(** [Object.values(probes).map((probe) => probe.status)], then
    [includes]. *)
Definition getOverallStatus (probes : gmap string ProbeResult.t) : Status :=
  let statuses := ProbeResult.status <$> (map_to_list probes).*2 in
  if bool_decide (critical ∈ statuses) then critical
  else if bool_decide (warning ∈ statuses) then warning
  else healthy.

(** [process.env.npm_package_version || "1.0.0"]: the empty string is
    falsy too. *)
Definition versionOf (npm_package_version : option string) : string :=
  match npm_package_version with
  | None | Some "" => "1.0.0"
  | Some v => v
  end.

(** The handler [healthCheckHandler()] returns. *)
Definition healthCheckHandler
    (w : W) (tracker : RequestTracker.t) (clock : Clock.t)
    (npm_package_version : option string) (s : t) : Response.t HealthBody.t :=
  let metrics := collectMetrics w tracker clock s in
  let probes := probeResults s in
  let overallStatus := getOverallStatus probes in
  {| Response.statusCode := if decide (overallStatus = healthy) then 200 else 503;
     Response.body :=
       {| HealthBody.status := overallStatus;
          HealthBody.timestamp := HealthMetrics.timestamp metrics;
          HealthBody.uptime := HealthMetrics.uptime metrics;
          HealthBody.metrics := metrics;
          HealthBody.probes := probes;
          HealthBody.version := versionOf npm_package_version |} |}.

(** The handler [metricsHistoryHandler()] returns; [limit] is
    [req.query.limit], absent or a string.  [res.json] answers 200. *)
Definition metricsHistoryHandler (limit : option string) (s : t)
  : Response.t HistoryBody.t :=
  let limit := Js.orDefault (Js.parseInt (Js.toStringOpt limit)) 50 in
  let metrics := Js.slice (metricsHistory s) (- limit) in
  {| Response.statusCode := 200;
     Response.body :=
       {| HistoryBody.metrics := metrics;
          HistoryBody.count := Js.length metrics;
          HistoryBody.latest := Js.index metrics (Js.length metrics - 1) |} |}.

Definition getProbeResults (s : t) : gmap string ProbeResult.t := probeResults s.

(** What one firing of the collection timer reads. *)
Record TickInput : Type := mkTick {
  world : W;
  tracker : RequestTracker.t;
  clock : Clock.t;
}.

(** The collection timer firing once per input, in order. *)
Definition ticks (inputs : list TickInput) (s : t) : t :=
  fold_left (fun s i => metricsCollectionTick (world i) (tracker i) (clock i) s) inputs s.

(** The snapshots those firings collect, in order. *)
Definition collected (inputs : list TickInput) (s : t) : list HealthMetrics.t :=
  (fun i => collectMetrics (world i) (tracker i) (clock i) s) <$> inputs.

(** Executions of probes settling one after the other, each with the
    world its check ran in. *)
Definition executions (runs : list (CustomProbe.t W * W))
    (table : gmap string ProbeResult.t) : gmap string ProbeResult.t :=
  fold_left (fun table run => (executeProbe run.1 run.2 table).2) runs table.

(** *** [requestTrackingMiddleware]

    [enableRequestTracking] and [enableErrorTracking] stand for the two
    fields of [this.config] as the conditions read them. *)

(** What the [finish] listener of a request closes over. *)
Record Pending : Type := mkPending { requestId : string; startTime_ : Z }.

(** The middleware on an incoming request: [now] is read for [startTime],
    [nowToken] inside [startRequest].  [None]: no listener is installed. *)
Definition onRequest (enableRequestTracking : bool) (now nowToken : Z) (suffix : string)
    (tracker : RequestTracker.t) : option Pending * RequestTracker.t :=
  if negb enableRequestTracking then (None, tracker)
  else
    let startTime := now in
    let '(requestId, tracker) := RequestTracker.startRequest nowToken suffix tracker in
    (Some {| requestId := requestId; startTime_ := startTime |}, tracker).

(** The [finish] listener, for a response of status [statusCode]. *)
Definition onFinish (enableErrorTracking : bool) (pending : Pending) (statusCode : Z)
    (nowEnd nowError : Z) (tracker : RequestTracker.t) : RequestTracker.t :=
  let tracker :=
    RequestTracker.endRequest (requestId pending) (startTime_ pending) nowEnd tracker in
  if (statusCode >=? 400) && enableErrorTracking
  then RequestTracker.recordError nowError tracker
  else tracker.

End Service.
Arguments t W : clear implicits.
Arguments TickInput W : clear implicits.

Section Construction.
Context {W : Type} {sys : SystemMetrics W} {node : NodeRuntime W} {show : NumberToString}.

(** [initializeBuiltInProbes]: [alertThresholds] and [customProbes] are
    the two fields of [this.config] it reads, [probes] the array
    [this.customProbes] it pushes to. *)
Definition initializeBuiltInProbes
    (alertThresholds : option AlertThresholds.t)
    (customProbes : option (list (CustomProbe.t W)))
    (probes : list (CustomProbe.t W)) : list (CustomProbe.t W) :=
  let memoryUsage := alertThresholds ≫= AlertThresholds.memoryUsage in
  let cpuUsage := alertThresholds ≫= AlertThresholds.cpuUsage in
  let probes :=
    probes ++ [BuiltInProbes.createMemoryProbe memoryUsage;
               BuiltInProbes.createCpuProbe cpuUsage;
               BuiltInProbes.createUptimeProbe;
               BuiltInProbes.createDiskSpaceProbe] in
  match customProbes with
  | Some custom => probes ++ custom
  | None => probes
  end.

End Construction.

End MonitoringService.

(** ** A world that is its three readings *)

Module Readings.
Record t : Type := mk { memory : Memory.t; cpu : Cpu.t; process : Process.t }.

#[global] Instance systemMetrics : SystemMetrics t :=
  {| getMemoryMetrics := memory; getCpuMetrics := cpu; getProcessMetrics := process |}.

(** A machine at the given memory percentage and CPU usage. *)
Definition at_ (memoryPercentage : Z) (cpuUsage : Q) : t :=
  {| memory := {| Memory.used := 0; Memory.total := 0;
                  Memory.percentage := memoryPercentage;
                  Memory.heap := {| Heap.used := 0; Heap.total := 0; Heap.percentage := 0 |} |};
     cpu := {| Cpu.usage := cpuUsage; Cpu.loadAverage := [0%Q; 0%Q; 0%Q] |};
     process := {| Process.pid := 1; Process.version := "v18.17.0";
                   Process.platform := "linux"; Process.arch := "x64" |} |}.

(** Prints the whole part of a number: enough for integral readings. *)
Definition wholeToString : NumberToString := fun x => pretty (Qfloor x).

(** The snapshot an idle service collects on that machine at [timestamp]. *)
Definition snapshot (timestamp : Z) : HealthMetrics.t :=
  MonitoringService.collectMetrics (at_ 4 0%Q) RequestTracker.fresh
    {| MonitoringService.Clock.atGetMetrics := timestamp;
       MonitoringService.Clock.atTimestamp := timestamp;
       MonitoringService.Clock.atUptime := timestamp |}
    {| MonitoringService.customProbes := [];
       MonitoringService.probeResults := ∅;
       MonitoringService.metricsHistory := [];
       MonitoringService.startTime := 0 |}.

(** A service that has collected three snapshots and run no probe. *)
Definition threeSnapshots : MonitoringService.t t :=
  {| MonitoringService.customProbes := [];
     MonitoringService.probeResults := ∅;
     MonitoringService.metricsHistory :=
       [snapshot 30000; snapshot 60000; snapshot 90000];
     MonitoringService.startTime := 0 |}.

(** One firing of the collection timer on that machine at [timestamp]. *)
Definition tickAt (timestamp : Z) : MonitoringService.TickInput t :=
  {| MonitoringService.world := at_ 4 0%Q;
     MonitoringService.tracker := RequestTracker.fresh;
     MonitoringService.clock :=
       {| MonitoringService.Clock.atGetMetrics := timestamp;
          MonitoringService.Clock.atTimestamp := timestamp;
          MonitoringService.Clock.atUptime := timestamp |} |}.

(** A service right after construction, before any tick or probe. *)
Definition started : MonitoringService.t t :=
  {| MonitoringService.customProbes := [];
     MonitoringService.probeResults := ∅;
     MonitoringService.metricsHistory := [];
     MonitoringService.startTime := 0 |}.

(** A probe whose check rejects with the string ["db down"]. *)
Definition rejectingProbe : CustomProbe.t t :=
  {| CustomProbe.name := "database";
     CustomProbe.check := fun _ => Js.Throw (Js.ThrownValue "db down");
     CustomProbe.interval := None |}.
End Readings.

(** The same machines for the runtime probes: up for 1 h 23 min 45 s, in
    a working directory that can be read. *)
Module Runtime.
#[global] Instance node : NodeRuntime Readings.t :=
  {| process_uptime := fun _ => 5025%Q;
     process_cwd := fun _ => Js.Normal "/app";
     fs_statSync := fun _ _ => Js.Normal tt |}.

(** Raw memory readings that [getMemoryMetrics] turns into the memory
    reading of [Readings.at_ 50 0]. *)
Definition halfUsed : Collector.Raw :=
  {| Collector.totalmem := 200; Collector.freemem := 100;
     Collector.heapUsed := 0; Collector.heapTotal := 1 |}.

(** A probe whose check resolves with a warning. *)
Definition warningProbe : CustomProbe.t Readings.t :=
  {| CustomProbe.name := "queue";
     CustomProbe.check := fun _ =>
       Js.Normal {| ProbeResult.status := warning;
                    ProbeResult.message := Some "Queue is filling up";
                    ProbeResult.value := None;
                    ProbeResult.metadata := None |};
     CustomProbe.interval := Some 0 |}.
End Runtime.

(** ** The vocabulary of the specification *)

(** Some probe of the table has a result of status [st]. *)
Definition has_status (st : Status) (probes : gmap string ProbeResult.t) : Prop :=
  exists name r, probes !! name = Some r /\ ProbeResult.status r = st.

(** The [n] most recent entries of a sequence kept in append order. *)
Definition mostRecent {A} (n : nat) (l : list A) : list A :=
  drop (List.length l - n) l.

(** The arithmetic mean of a non-empty window of latencies. *)
Definition mean (window : list Z) : Q :=
  let total := foldr Z.add 0 window in
  let count := Z.of_nat (List.length window) in
  (inject_Z total / inject_Z count)%Q.

(** An error time lies within the trailing five minutes of [now]. *)
Definition withinFiveMinutes (now time : Z) : Prop := now - time < 5 * 60 * 1000.

#[export] Instance withinFiveMinutes_dec now time : Decision (withinFiveMinutes now time).
Proof. unfold withinFiveMinutes. apply _. Defined.

(** The cause of a failure as text, the way the specification quotes it in
    the message: the message of an [Error], the value itself otherwise. *)
Definition causeText (c : Js.Thrown) : string :=
  match c with
  | Js.ThrownError message => message
  | Js.ThrownValue text => text
  end.

(** The table [table'] holds for [name] a critical result whose message is
    ["Probe execution failed: "] followed by [text]. *)
Definition failureStored (name text : string) (table' : gmap string ProbeResult.t) : Prop :=
  exists r, table' !! name = Some r /\
    ProbeResult.status r = critical /\
    ProbeResult.message r = Some ("Probe execution failed: " +:+ text).

(** The status of the result a check settles with, if it does. *)
Definition statusOf (c : Js.Completion ProbeResult.t) : option Status :=
  match c with
  | Js.Normal r => Some (ProbeResult.status r)
  | Js.Throw _ => None
  end.

(** How severe a status is. *)
Definition severity (st : Status) : Z :=
  match st with healthy => 0 | warning => 1 | critical => 2 end.

(** What an execution of [probe] in world [w] leaves in the table: the
    result of the check, or the critical result that stands for its
    failure. *)
Definition settled {W} (probe : CustomProbe.t W) (w : W) : ProbeResult.t :=
  match CustomProbe.check probe w with
  | Js.Normal r => r
  | Js.Throw c =>
      {| ProbeResult.status := critical;
         ProbeResult.message :=
           Some ("Probe execution failed: " +:+
                 match c with
                 | Js.ThrownError message => message
                 | Js.ThrownValue _ => "Unknown error"
                 end);
         ProbeResult.value := None;
         ProbeResult.metadata := None |}
  end.

(** * Properties *)

(** ** The built-ins on small inputs *)

Example parseInt_plain : Js.parseInt "20" = Some 20.
Proof. reflexivity. Qed.
Example parseInt_negative : Js.parseInt "  -5" = Some (-5).
Proof. reflexivity. Qed.
Example parseInt_prefix : Js.parseInt "12abc" = Some 12.
Proof. reflexivity. Qed.
Example parseInt_hex : Js.parseInt "0x1f" = Some 31.
Proof. reflexivity. Qed.
Example parseInt_nan : Js.parseInt "abc" = None.
Proof. reflexivity. Qed.
Example parseInt_undefined : Js.parseInt (Js.toStringOpt None) = None.
Proof. reflexivity. Qed.
Example round_half_up : Js.Math_round (3 # 2) = 2.
Proof. reflexivity. Qed.
Example round_half_up_neg : Js.Math_round (-3 # 2) = -1.
Proof. reflexivity. Qed.
Example slice_last : Js.slice [1; 2; 3; 4] (-2) = [3; 4].
Proof. reflexivity. Qed.
Example slice_from : Js.slice [1; 2; 3; 4] 1 = [2; 3; 4].
Proof. reflexivity. Qed.

(** ** The overall status *)

Section OverallStatus.
Import MonitoringService.

Lemma elem_of_statuses (st : Status) (probes : gmap string ProbeResult.t) :
  st ∈ ProbeResult.status <$> (map_to_list probes).*2 <-> has_status st probes.
Proof.
  unfold has_status. rewrite list_elem_of_fmap. split.
  - intros (r & -> & Hr). apply list_elem_of_fmap in Hr as ([name r'] & -> & Hin).
    apply elem_of_map_to_list in Hin. by exists name, r'.
  - intros (name & r & Hlook & <-). exists r. split; [done |].
    apply list_elem_of_fmap. exists (name, r). split; [done |].
    by apply elem_of_map_to_list.
Qed.

(** C1. [getOverallStatus] is critical exactly when some result is
    critical, warning exactly when none is critical and some result is
    warning, and healthy exactly when no result is critical or warning. *)
Theorem getOverallStatus_dominance (probes : gmap string ProbeResult.t) :
  (getOverallStatus probes = critical <-> has_status critical probes) /\
  (getOverallStatus probes = warning <->
     ~ has_status critical probes /\ has_status warning probes) /\
  (getOverallStatus probes = healthy <->
     ~ has_status critical probes /\ ~ has_status warning probes).
Proof.
  unfold getOverallStatus.
  repeat case_bool_decide;
    repeat match goal with H : context [_ ∈ _] |- _ => rewrite elem_of_statuses in H end;
    intuition congruence.
Qed.

End OverallStatus.

(** ** The request tracker *)

Section Tracker.
Import RequestTracker.

Lemma call_activeRequests (c : Call) (s : t) :
  activeRequests (call c s) = activeRequests s + (if isStart c then 1 else -1).
Proof. destruct c; simpl; lia. Qed.

Lemma run_snoc (calls : list Call) (c : Call) (s : t) :
  run (calls ++ [c]) s = call c (run calls s).
Proof. unfold run. by rewrite fold_left_app. Qed.

Lemma starts_snoc (calls : list Call) (c : Call) :
  starts (calls ++ [c]) = starts calls + (if isStart c then 1 else 0).
Proof.
  unfold starts, Js.length. rewrite List.filter_app, length_app. simpl.
  destruct (isStart c); simpl; lia.
Qed.

Lemma ends_snoc (calls : list Call) (c : Call) :
  ends (calls ++ [c]) = ends calls + (if isStart c then 0 else 1).
Proof.
  unfold ends, Js.length. rewrite List.filter_app, length_app. simpl.
  destruct (isStart c); simpl; lia.
Qed.

Lemma run_activeRequests (calls : list Call) :
  activeRequests (run calls fresh) = starts calls - ends calls.
Proof.
  induction calls as [| c calls IH] using rev_ind; [reflexivity |].
  rewrite run_snoc, call_activeRequests, starts_snoc, ends_snoc, IH.
  destruct (isStart c); lia.
Qed.

(** C2, the claim as written, fails: one [endRequest] on a fresh tracker,
    which nothing in the code refuses, leaves the counter at -1. *)
Lemma active_negative_after_unmatched_end :
  activeRequests (run [EndRequest "req_0_abc" 0 0] fresh) = -1 /\
  ~ (forall calls k, 0 <= activeRequests (run (take k calls) fresh)).
Proof.
  split; [reflexivity |].
  intros H. specialize (H [EndRequest "req_0_abc" 0 0] 1%nat). simpl in H. lia.
Qed.

(** C2, amended. After every sequence of [startRequest] and [endRequest]
    calls on a fresh tracker, and at every point of it, the active counter
    is the number of [startRequest] calls minus the number of [endRequest]
    calls made so far; it is non-negative at a point exactly when no more
    [endRequest] than [startRequest] calls were made up to there. *)
Theorem active_is_starts_minus_ends (calls : list Call) (k : nat) :
  let sofar := take k calls in
  activeRequests (run calls fresh) = starts calls - ends calls /\
  activeRequests (run sofar fresh) = starts sofar - ends sofar /\
  (0 <= activeRequests (run sofar fresh) <-> ends sofar <= starts sofar).
Proof.
  simpl. rewrite !run_activeRequests. lia.
Qed.

(** The count a snapshot reports is that counter. *)
Lemma getMetrics_active (now : Z) (s : t) :
  Metrics.active (getMetrics now s) = activeRequests s.
Proof. reflexivity. Qed.

(** C10. [endRequest] never looks at its [requestId]: two calls that
    differ only in the token give the same state, the active counter one
    lower and the elapsed time appended to the latency window, the oldest
    latency dropped once the window exceeds 100. *)
Theorem endRequest_ignores_requestId
    (id1 id2 : string) (startTime now : Z) (s : t) :
  endRequest id1 startTime now s = endRequest id2 startTime now s /\
  activeRequests (endRequest id1 startTime now s) = activeRequests s - 1 /\
  requestTimes (endRequest id1 startTime now s) =
    (if decide (List.length (requestTimes s) < 100)%nat
     then requestTimes s ++ [now - startTime]
     else tail (requestTimes s ++ [now - startTime])) /\
  totalRequests (endRequest id1 startTime now s) = totalRequests s /\
  errors (endRequest id1 startTime now s) = errors s /\
  errorTimes (endRequest id1 startTime now s) = errorTimes s.
Proof.
  split; [reflexivity |]. split; [reflexivity |]. split; [| done].
  unfold endRequest, Js.push, Js.shift, Js.length. simpl.
  rewrite length_app. simpl.
  case_decide; destruct (Z.gtb_spec (Z.of_nat (List.length (requestTimes s) + 1)) 100);
    first [done | lia].
Qed.

Lemma sum_foldr (l : list Z) (a : Z) : fold_left Z.add l a = a + foldr Z.add 0 l.
Proof.
  revert a. induction l as [| x l IH]; intros a; simpl; [lia |].
  rewrite IH. lia.
Qed.

Lemma recentErrors_count (now : Z) (times : list Z) :
  List.length (List.filter (fun time => time >? now - 5 * 60 * 1000) times) =
  List.length (filter (withinFiveMinutes now) times).
Proof.
  induction times as [| time times IH]; [reflexivity |].
  simpl. rewrite filter_cons. unfold withinFiveMinutes at 1.
  destruct (Z.gtb_spec time (now - 5 * 60 * 1000)); case_decide; simpl; lia.
Qed.

(** [Math.round] is within a half of its argument, the upper half included. *)
Lemma Math_round_nearest (x : Q) :
  (x - (1 # 2) < inject_Z (Js.Math_round x))%Q /\
  (inject_Z (Js.Math_round x) <= x + (1 # 2))%Q.
Proof.
  unfold Js.Math_round.
  pose proof (Qfloor_le (x + (1 # 2))) as Hle.
  pose proof (Qlt_floor (x + (1 # 2))) as Hlt.
  rewrite inject_Z_plus in Hlt. change (inject_Z 1) with 1%Q in Hlt.
  split; lra.
Qed.

(** C8, the claim as written, fails: after two requests that took 1 ms
    and 2 ms the mean is 3/2 and [getMetrics] reports 2. *)
Lemma averageResponseTime_is_rounded :
  let s := run [EndRequest "req_0_a" 0 1; EndRequest "req_0_b" 0 2] fresh in
  requestTimes s = [1; 2] /\
  Metrics.averageResponseTime (getMetrics 2 s) = 2 /\
  ~ (inject_Z (Metrics.averageResponseTime (getMetrics 2 s)) == mean (requestTimes s))%Q.
Proof.
  simpl. split; [reflexivity |]. split; [reflexivity |].
  intros H. vm_compute in H. discriminate H.
Qed.

(** C8, amended. [getMetrics] reports as [averageResponseTime] the mean of
    the latency window rounded to the nearest integer, halves upwards, and
    0 for an empty window; as [errors.rate] it reports the number of error
    times of the window that lie within the trailing five minutes, divided
    by 5. *)
Theorem getMetrics_average_and_rate (now : Z) (s : t) :
  let m := getMetrics now s in
  let recent := filter (withinFiveMinutes now) (errorTimes s) in
  match requestTimes s with
  | [] => Metrics.averageResponseTime m = 0
  | _ :: _ =>
      Metrics.averageResponseTime m = Qfloor (mean (requestTimes s) + (1 # 2))%Q /\
      (mean (requestTimes s) - (1 # 2) < inject_Z (Metrics.averageResponseTime m))%Q /\
      (inject_Z (Metrics.averageResponseTime m) <= mean (requestTimes s) + (1 # 2))%Q
  end /\
  Errors.rate (Metrics.errors m) = (inject_Z (Z.of_nat (List.length recent)) / 5)%Q.
Proof.
  cbv zeta. split.
  - destruct (requestTimes s) as [| x l] eqn:Htimes.
    { unfold getMetrics. by rewrite Htimes. }
    assert (Havg : Metrics.averageResponseTime (getMetrics now s)
                   = Js.Math_round (mean (requestTimes s))).
    { unfold getMetrics, mean, Js.sum, Js.length. simpl. rewrite Htimes.
      rewrite sum_foldr. reflexivity. }
    rewrite <- Htimes, Havg. split; [reflexivity |]. apply Math_round_nearest.
  - unfold getMetrics, Js.length. simpl. by rewrite recentErrors_count.
Qed.

End Tracker.

(** ** The built-in probes *)

Section ProbeFacts.
Import BuiltInProbes.
Context {W : Type} {sys : SystemMetrics W} {show : NumberToString}.

Lemma gt_true (x y : Q) : gt x y = true <-> (y < x)%Q.
Proof.
  unfold gt. rewrite negb_true_iff, <- not_true_iff_false, Qle_bool_iff.
  split; [apply Qnot_le_lt | apply Qlt_not_le].
Qed.

Lemma gt_false (x y : Q) : gt x y = false <-> (x <= y)%Q.
Proof. unfold gt. by rewrite negb_false_iff, Qle_bool_iff. Qed.

(** The status either probe derives from a reading and a threshold. *)
Lemma memoryProbe_status (t : option Q) (w : W) :
  let usage := inject_Z (Memory.percentage (getMemoryMetrics w)) in
  let threshold := default 80%Q t in
  statusOf (CustomProbe.check (createMemoryProbe t) w) =
  Some (if gt usage threshold then critical
        else if gt usage (threshold * 0.8)%Q then warning else healthy).
Proof. simpl. by repeat case_match. Qed.

Lemma cpuProbe_status (t : option Q) (w : W) :
  let usage := Cpu.usage (getCpuMetrics w) in
  let threshold := default 80%Q t in
  statusOf (CustomProbe.check (createCpuProbe t) w) =
  Some (if gt usage threshold then critical
        else if gt usage (threshold * 0.8)%Q then warning else healthy).
Proof. simpl. by repeat case_match. Qed.

(** C4, the claim as written, fails at its second reading: 65 is above
    0.8 * 80 = 64, and the probe answers warning. *)
Lemma memoryProbe_65_is_warning :
  let probe := createMemoryProbe (W := Readings.t) (show := Readings.wholeToString)
                 (Some 80%Q) in
  Memory.percentage (getMemoryMetrics (Readings.at_ 65 0%Q)) = 65 /\
  statusOf (CustomProbe.check probe (Readings.at_ 65 0%Q)) = Some warning /\
  statusOf (CustomProbe.check probe (Readings.at_ 65 0%Q)) <> Some healthy.
Proof. simpl. split; [reflexivity |]. split; [reflexivity | discriminate]. Qed.

(** C4, amended. With the threshold 80, the memory probe answers a reading
    of 85 percent with a critical result of value 85, and a reading of 65
    percent with a warning result of value 65. *)
Theorem memoryProbe_85_critical_65_warning (w85 w65 : W)
    (H85 : Memory.percentage (getMemoryMetrics w85) = 85)
    (H65 : Memory.percentage (getMemoryMetrics w65) = 65) :
  CustomProbe.check (createMemoryProbe (Some 80%Q)) w85 =
    Js.Normal
      {| ProbeResult.status := critical;
         ProbeResult.message :=
           Some ("Memory usage is " +:+ numberToString 85%Q +:+ "% (threshold: "
                 +:+ numberToString 80%Q +:+ "%)");
         ProbeResult.value := Some 85%Q;
         ProbeResult.metadata := None |} /\
  CustomProbe.check (createMemoryProbe (Some 80%Q)) w65 =
    Js.Normal
      {| ProbeResult.status := warning;
         ProbeResult.message :=
           Some ("Memory usage is " +:+ numberToString 65%Q
                 +:+ "% (approaching threshold)");
         ProbeResult.value := Some 65%Q;
         ProbeResult.metadata := None |}.
Proof.
  unfold createMemoryProbe. simpl. rewrite H85, H65. split; reflexivity.
Qed.

(** The first healthy reading below the threshold 80 is 64. *)
Lemma memoryProbe_64_healthy (w : W) :
  Memory.percentage (getMemoryMetrics w) = 64 ->
  statusOf (CustomProbe.check (createMemoryProbe (Some 80%Q)) w) = Some healthy.
Proof. intros H. unfold createMemoryProbe. simpl. by rewrite H. Qed.

End ProbeFacts.

(** ** The history buffer *)

Section History.
Import MonitoringService.
Context {W : Type} {sys : SystemMetrics W}.

(** Appending to a buffer of the 100 most recent entries and shifting when
    it overflows gives the 100 most recent entries again. *)
Lemma mostRecent_push {A} (l : list A) (x : A) :
  let history := Js.push (mostRecent 100 l) x in
  (if Js.length history >? 100 then Js.shift history else history)
  = mostRecent 100 (l ++ [x]).
Proof.
  unfold mostRecent, Js.push, Js.shift, Js.length. simpl.
  rewrite !length_app, length_drop. simpl.
  destruct (decide (List.length l < 100)%nat) as [Hlt | Hge].
  - replace (List.length l - 100)%nat with 0%nat by lia.
    replace (List.length l + 1 - 100)%nat with 0%nat by lia.
    rewrite !drop_0.
    destruct (Z.gtb_spec (Z.of_nat (List.length l - 0 + 1)) 100); [lia | done].
  - destruct (Z.gtb_spec (Z.of_nat (List.length l - (List.length l - 100) + 1)) 100);
      [| lia].
    change (tail (drop (List.length l - 100) l ++ [x]))
      with (drop 1 (drop (List.length l - 100) l ++ [x])).
    rewrite <- drop_app_le by lia. rewrite drop_drop. f_equal. lia.
Qed.

Lemma mostRecent_all {A} (n : nat) (l : list A) :
  (List.length l <= n)%nat -> mostRecent n l = l.
Proof.
  intros Hle. unfold mostRecent.
  replace (List.length l - n)%nat with 0%nat by lia. apply drop_0.
Qed.

Lemma length_mostRecent {A} (n : nat) (l : list A) :
  List.length (mostRecent n l) = Nat.min n (List.length l).
Proof. unfold mostRecent. rewrite length_drop. lia. Qed.

Lemma ticks_snoc (inputs : list (TickInput W)) (i : TickInput W) (s : t W) :
  ticks (inputs ++ [i]) s
  = metricsCollectionTick (world i) (tracker i) (clock i) (ticks inputs s).
Proof. unfold ticks. by rewrite fold_left_app. Qed.

Lemma ticks_startTime (inputs : list (TickInput W)) (s : t W) :
  startTime (ticks inputs s) = startTime s.
Proof.
  induction inputs as [| i inputs IH] using rev_ind; [reflexivity |].
  by rewrite ticks_snoc.
Qed.

Lemma collectMetrics_startTime w tr cl (s s' : t W) :
  startTime s = startTime s' -> collectMetrics w tr cl s = collectMetrics w tr cl s'.
Proof. intros Heq. unfold collectMetrics. by rewrite Heq. Qed.

Lemma ticks_history (inputs : list (TickInput W)) (s : t W) :
  (List.length (metricsHistory s) <= 100)%nat ->
  metricsHistory (ticks inputs s)
  = mostRecent 100 (metricsHistory s ++ collected inputs s).
Proof.
  intros Hle. induction inputs as [| i inputs IH] using rev_ind.
  - unfold collected. simpl. rewrite app_nil_r. by rewrite mostRecent_all.
  - rewrite ticks_snoc. unfold collected. rewrite fmap_app, app_assoc. simpl.
    rewrite <- mostRecent_push. fold (collected inputs s). rewrite <- IH.
    unfold metricsCollectionTick. simpl.
    by rewrite (collectMetrics_startTime _ _ _ _ s (ticks_startTime inputs s)).
Qed.

(** C3. Starting from the empty history, after every sequence of
    collection ticks the buffer holds the 100 most recent snapshots that
    were collected, oldest first, and so never more than 100: the snapshot
    appended beyond that evicts the oldest one. *)
Theorem metricsHistory_keeps_last_100
    (inputs : list (TickInput W)) (s : t W) (Hempty : metricsHistory s = []) :
  metricsHistory (ticks inputs s) = mostRecent 100 (collected inputs s) /\
  (List.length (metricsHistory (ticks inputs s)) <= 100)%nat /\
  List.length (metricsHistory (ticks inputs s)) = Nat.min 100 (List.length inputs) /\
  forall i, (100 <= List.length inputs)%nat ->
    metricsHistory (ticks (inputs ++ [i]) s)
    = tail (metricsHistory (ticks inputs s))
      ++ [collectMetrics (world i) (tracker i) (clock i) s].
Proof.
  assert (Hall : forall inputs, metricsHistory (ticks inputs s)
                                = mostRecent 100 (collected inputs s)).
  { intros l. rewrite ticks_history by (rewrite Hempty; simpl; lia).
    by rewrite Hempty. }
  assert (Hlen : forall l : list (TickInput W),
             List.length (collected l s) = List.length l).
  { intros l. unfold collected. by rewrite length_fmap. }
  rewrite !Hall, length_mostRecent, Hlen.
  split; [done |]. split; [lia |]. split; [done |].
  intros i Hfull. rewrite Hall. unfold collected. rewrite fmap_app. simpl.
  fold (collected inputs s). unfold mostRecent.
  rewrite length_app, Hlen. simpl.
  change (tail (drop (List.length inputs - 100) (collected inputs s)))
    with (drop 1 (drop (List.length inputs - 100) (collected inputs s))).
  rewrite drop_drop, drop_app_le by (rewrite Hlen; lia).
  do 2 f_equal. lia.
Qed.

End History.

(** ** Probe executions *)

Section Executions.
Import MonitoringService.
Context {W : Type} {sys : SystemMetrics W}.

(** A check that settles normally has its result stored as it is. *)
Lemma executeProbe_success (probe : CustomProbe.t W) (w : W) (r : ProbeResult.t)
    (table : gmap string ProbeResult.t) :
  CustomProbe.check probe w = Js.Normal r ->
  executeProbe probe w table = (Js.Normal tt, <[CustomProbe.name probe := r]> table).
Proof.
  intros Hok. unfold executeProbe, tryCatch, bind, await, probeResults_set.
  by rewrite Hok.
Qed.

(** The two copies of the closure are one function. *)
Lemma addProbe_executeProbe_same (probe : CustomProbe.t W) (w : W) :
  addProbe_executeProbe probe w = executeProbe probe w.
Proof. reflexivity. Qed.

(** C7, amended. When the check of a probe throws or rejects with cause
    [c], the execution, started by [startProbeExecution] or by [addProbe],
    completes normally for its caller and stores under the probe's name a
    critical result whose message is ["Probe execution failed: "] followed
    by the message of [c] when [c] is an [Error] and by ["Unknown error"]
    when it is not; the results stored for all other names are unchanged. *)
Theorem failing_probe_is_recorded
    (probe : CustomProbe.t W) (w : W) (c : Js.Thrown)
    (table : gmap string ProbeResult.t) (s : t W)
    (Hfail : CustomProbe.check probe w = Js.Throw c) :
  let text := match c with
              | Js.ThrownError message => message
              | Js.ThrownValue _ => "Unknown error"
              end in
  let failure := {| ProbeResult.status := critical;
                    ProbeResult.message := Some ("Probe execution failed: " +:+ text);
                    ProbeResult.value := None;
                    ProbeResult.metadata := None |} in
  executeProbe probe w table
    = (Js.Normal tt, <[CustomProbe.name probe := failure]> table) /\
  addProbe_executeProbe probe w table
    = (Js.Normal tt, <[CustomProbe.name probe := failure]> table) /\
  failureStored (CustomProbe.name probe) text (executeProbe probe w table).2 /\
  (forall other, other <> CustomProbe.name probe ->
     (executeProbe probe w table).2 !! other = table !! other) /\
  (probeExecution probe w s).1 = Js.Normal tt /\
  (addProbe probe w s).1 = Js.Normal tt /\
  probeResults (probeExecution probe w s).2
    = <[CustomProbe.name probe := failure]> (probeResults s) /\
  probeResults (addProbe probe w s).2
    = <[CustomProbe.name probe := failure]> (probeResults s).
Proof.
  intros text failure.
  assert (Hexec : forall table, executeProbe probe w table
            = (Js.Normal tt, <[CustomProbe.name probe := failure]> table)).
  { intros table'. unfold executeProbe, tryCatch, bind, await, probeResults_set.
    rewrite Hfail. subst failure text. by destruct c. }
  assert (Hadd : forall table, addProbe_executeProbe probe w table
            = (Js.Normal tt, <[CustomProbe.name probe := failure]> table))
    by exact Hexec.
  unfold probeExecution, addProbe, onTable. simpl. rewrite ?Hexec, ?Hadd. simpl.
  repeat split.
  - exists failure. by rewrite lookup_insert_eq.
  - intros other Hne. by rewrite lookup_insert_ne.
Qed.

(** C9. With an empty probe-result table the overall status is healthy and
    the health handler answers 200 with status healthy. *)
Theorem empty_table_is_healthy
    (w : W) (tracker : RequestTracker.t) (clock : Clock.t)
    (npm_package_version : option string) (s : t W)
    (Hempty : probeResults s = ∅) :
  let response := healthCheckHandler w tracker clock npm_package_version s in
  getOverallStatus (probeResults s) = healthy /\
  Response.statusCode response = 200 /\
  HealthBody.status (Response.body response) = healthy /\
  HealthBody.probes (Response.body response) = ∅.
Proof.
  assert (Hstatus : getOverallStatus (probeResults s) = healthy).
  { rewrite Hempty. unfold getOverallStatus. rewrite map_to_list_empty. reflexivity. }
  unfold healthCheckHandler. simpl. rewrite Hstatus. simpl. by rewrite Hempty.
Qed.

(** The handler answers 503 as soon as the status is not healthy. *)
Lemma healthCheckHandler_statusCode
    (w : W) (tracker : RequestTracker.t) (clock : Clock.t)
    (npm_package_version : option string) (s : t W) :
  Response.statusCode (healthCheckHandler w tracker clock npm_package_version s)
  = if decide (getOverallStatus (probeResults s) = healthy) then 200 else 503.
Proof. reflexivity. Qed.

(** *** The history handler *)

(** A [limit] that [parseInt] reads as NaN or as zero is replaced by 50:
    the handler answers with the 50 most recent snapshots. *)
Lemma metricsHistoryHandler_default (limit : option string) (s : t W) :
  Js.parseInt (Js.toStringOpt limit) = None \/
  Js.parseInt (Js.toStringOpt limit) = Some 0 ->
  HistoryBody.metrics (Response.body (metricsHistoryHandler limit s))
  = mostRecent 50 (metricsHistory s).
Proof.
  intros Hparse. unfold metricsHistoryHandler. simpl.
  assert (Js.orDefault (Js.parseInt (Js.toStringOpt limit)) 50 = 50) as ->
    by (destruct Hparse as [-> | ->]; reflexivity).
  unfold Js.slice, Js.length, mostRecent. simpl. f_equal. lia.
Qed.

(** A [limit] that [parseInt] reads as the negative number [- k] is kept,
    and [slice(k)] drops the [k] oldest snapshots instead. *)
Lemma metricsHistoryHandler_negative (limit : option string) (k : Z) (s : t W) :
  0 < k ->
  Js.parseInt (Js.toStringOpt limit) = Some (- k) ->
  HistoryBody.metrics (Response.body (metricsHistoryHandler limit s))
  = drop (Z.to_nat k) (metricsHistory s).
Proof.
  intros Hk Hparse. unfold metricsHistoryHandler. simpl. rewrite Hparse.
  assert (Js.orDefault (Some (- k)) 50 = - k) as -> by (destruct k; done).
  unfold Js.slice, Js.length. rewrite Z.opp_involutive.
  destruct (Z.ltb_spec k 0); [lia |].
  destruct (Z.min_spec k (Z.of_nat (List.length (metricsHistory s))))
    as [[_ ->] | [Hge ->]]; [done |].
  rewrite Nat2Z.id, drop_all. symmetry. apply drop_ge. lia.
Qed.

End Executions.

(** ** Concrete runs *)

(** C6, on the code: the limit ["-5"] is not replaced by 50.  A service
    holding three snapshots answers it with an empty list, where the
    default of 50 gives all three. *)
Theorem metricsHistoryHandler_negative_limit :
  MonitoringService.metricsHistoryHandler (Some "-5") Readings.threeSnapshots
  = {| MonitoringService.Response.statusCode := 200;
       MonitoringService.Response.body :=
         {| MonitoringService.HistoryBody.metrics := [];
            MonitoringService.HistoryBody.count := 0;
            MonitoringService.HistoryBody.latest := None |} |} /\
  MonitoringService.HistoryBody.metrics
    (MonitoringService.Response.body
       (MonitoringService.metricsHistoryHandler (Some "0") Readings.threeSnapshots))
  = [Readings.snapshot 30000; Readings.snapshot 60000; Readings.snapshot 90000] /\
  MonitoringService.HistoryBody.metrics
    (MonitoringService.Response.body
       (MonitoringService.metricsHistoryHandler (Some "abc") Readings.threeSnapshots))
  = [Readings.snapshot 30000; Readings.snapshot 60000; Readings.snapshot 90000].
Proof. repeat split; reflexivity. Qed.

(** C7, the claim as written, fails for a cause that is not an [Error]: a
    check that rejects with the string ["db down"] is recorded as
    ["Probe execution failed: Unknown error"], without the cause. *)
Lemma rejection_cause_not_in_message :
  let table := (MonitoringService.executeProbe Readings.rejectingProbe
                  (Readings.at_ 4 0%Q) ∅).2 in
  CustomProbe.check Readings.rejectingProbe (Readings.at_ 4 0%Q)
    = Js.Throw (Js.ThrownValue "db down") /\
  table !! "database"
    = Some {| ProbeResult.status := critical;
              ProbeResult.message := Some "Probe execution failed: Unknown error";
              ProbeResult.value := None;
              ProbeResult.metadata := None |} /\
  ~ failureStored "database" (causeText (Js.ThrownValue "db down")) table.
Proof.
  cbv zeta. split; [reflexivity |].
  assert (Hlook : (MonitoringService.executeProbe Readings.rejectingProbe
                     (Readings.at_ 4 0%Q) ∅).2 !! "database"
                  = Some {| ProbeResult.status := critical;
                            ProbeResult.message :=
                              Some "Probe execution failed: Unknown error";
                            ProbeResult.value := None;
                            ProbeResult.metadata := None |}).
  { unfold MonitoringService.executeProbe, MonitoringService.tryCatch,
      MonitoringService.bind, MonitoringService.await,
      MonitoringService.probeResults_set. simpl.
    by rewrite lookup_insert_eq. }
  split; [exact Hlook |].
  intros (r & Hr & _ & Hmsg). rewrite Hlook in Hr. injection Hr as <-.
  simpl in Hmsg. discriminate Hmsg.
Qed.

(** *** The theorems above at concrete inputs *)

Lemma metricsHistory_keeps_last_100_at_101_ticks :
  let inputs := Readings.tickAt <$> seqZ 1 101 in
  MonitoringService.metricsHistory Readings.started = [] /\
  MonitoringService.metricsHistory (MonitoringService.ticks inputs Readings.started)
  = mostRecent 100 (MonitoringService.collected inputs Readings.started).
Proof.
  intros inputs. split; [reflexivity |].
  exact (proj1 (metricsHistory_keeps_last_100 inputs Readings.started eq_refl)).
Defined.

Lemma memoryProbe_85_critical_65_warning_on_readings :
  let probe := BuiltInProbes.createMemoryProbe (W := Readings.t)
                 (show := Readings.wholeToString) (Some 80%Q) in
  Memory.percentage (getMemoryMetrics (Readings.at_ 85 0%Q)) = 85 /\
  Memory.percentage (getMemoryMetrics (Readings.at_ 65 0%Q)) = 65 /\
  statusOf (CustomProbe.check probe (Readings.at_ 85 0%Q)) = Some critical /\
  statusOf (CustomProbe.check probe (Readings.at_ 65 0%Q)) = Some warning.
Proof.
  intros probe. split; [reflexivity |]. split; [reflexivity |].
  destruct (memoryProbe_85_critical_65_warning (show := Readings.wholeToString)
              (Readings.at_ 85 0%Q) (Readings.at_ 65 0%Q))
    as [H85 H65]; [reflexivity | reflexivity |].
  subst probe. rewrite H85, H65. split; reflexivity.
Defined.

Lemma failing_probe_is_recorded_for_rejection :
  CustomProbe.check Readings.rejectingProbe (Readings.at_ 4 0%Q)
    = Js.Throw (Js.ThrownValue "db down") /\
  MonitoringService.executeProbe Readings.rejectingProbe (Readings.at_ 4 0%Q) ∅
    = (Js.Normal tt,
       <["database" :=
           {| ProbeResult.status := critical;
              ProbeResult.message := Some "Probe execution failed: Unknown error";
              ProbeResult.value := None;
              ProbeResult.metadata := None |}]> ∅).
Proof.
  split; [reflexivity |].
  destruct (failing_probe_is_recorded Readings.rejectingProbe (Readings.at_ 4 0%Q)
              (Js.ThrownValue "db down") ∅ Readings.started) as [Hexec _];
    [reflexivity | exact Hexec].
Defined.

Lemma empty_table_is_healthy_at_start :
  MonitoringService.probeResults Readings.started = ∅ /\
  MonitoringService.Response.statusCode
    (MonitoringService.healthCheckHandler (Readings.at_ 4 0%Q) RequestTracker.fresh
       (MonitoringService.clock (Readings.tickAt 1000)) None Readings.started) = 200.
Proof.
  split; [reflexivity |].
  destruct (empty_table_is_healthy (Readings.at_ 4 0%Q) RequestTracker.fresh
              (MonitoringService.clock (Readings.tickAt 1000)) None Readings.started)
    as (_ & Hcode & _); [reflexivity | exact Hcode].
Defined.

(** * Further properties of the code *)

(** ** The request tracker under all three mutators *)

Section TrackerRuns.
Import RequestTracker.

Lemma applyAll_snoc (ops : list Op) (o : Op) (s : t) :
  applyAll (ops ++ [o]) s = applyOp o (applyAll ops s).
Proof. unfold applyAll. by rewrite fold_left_app. Qed.

Lemma latencies_snoc (ops : list Op) (o : Op) :
  latencies (ops ++ [o])
  = latencies ops ++ match o with
                     | OpEnd _ startTime now => [now - startTime]
                     | _ => []
                     end.
Proof. unfold latencies. rewrite omap_app. by destruct o. Qed.

Lemma errorLog_snoc (ops : list Op) (o : Op) :
  errorLog (ops ++ [o])
  = errorLog ops ++ match o with OpError now => [now] | _ => [] end.
Proof. unfold errorLog. rewrite omap_app. by destruct o. Qed.

Lemma applyAll_windows (ops : list Op) :
  requestTimes (applyAll ops fresh) = mostRecent 100 (latencies ops) /\
  errorTimes (applyAll ops fresh) = mostRecent 100 (errorLog ops).
Proof.
  induction ops as [| o ops [IHr IHe]] using rev_ind; [done |].
  rewrite applyAll_snoc, latencies_snoc, errorLog_snoc.
  destruct o as [now suffix | requestId startTime now | now]; simpl;
    rewrite ?app_nil_r; try done.
  - split; [| done]. rewrite IHr. apply mostRecent_push.
  - split; [done |]. rewrite IHe. apply mostRecent_push.
Qed.

(** X1. After any sequence of [startRequest], [endRequest] and
    [recordError] calls on a fresh tracker, the latency window is the 100
    most recent response times and the error window the 100 most recent
    error times, both in call order; neither is ever longer than 100. *)
Theorem windows_keep_last_100 (ops : list Op) :
  requestTimes (applyAll ops fresh) = mostRecent 100 (latencies ops) /\
  errorTimes (applyAll ops fresh) = mostRecent 100 (errorLog ops) /\
  (List.length (requestTimes (applyAll ops fresh)) <= 100)%nat /\
  (List.length (errorTimes (applyAll ops fresh)) <= 100)%nat.
Proof.
  destruct (applyAll_windows ops) as [Hr He].
  rewrite Hr, He, !length_mostRecent. repeat split; lia.
Qed.

Lemma windows_bound (ops : list Op) :
  (List.length (requestTimes (applyAll ops fresh)) <= 100)%nat /\
  (List.length (errorTimes (applyAll ops fresh)) <= 100)%nat.
Proof.
  destruct (applyAll_windows ops) as [-> ->]. rewrite !length_mostRecent. lia.
Qed.

Lemma countStarts_snoc (ops : list Op) (o : Op) :
  countStarts (ops ++ [o])
  = countStarts ops + match o with OpStart _ _ => 1 | _ => 0 end.
Proof.
  unfold countStarts, Js.length. rewrite List.filter_app, length_app.
  destruct o; simpl; lia.
Qed.

Lemma countEnds_snoc (ops : list Op) (o : Op) :
  countEnds (ops ++ [o])
  = countEnds ops + match o with OpEnd _ _ _ => 1 | _ => 0 end.
Proof.
  unfold countEnds, Js.length. rewrite List.filter_app, length_app.
  destruct o; simpl; lia.
Qed.

(** X2. The counters count calls, whatever the windows have evicted:
    [totalRequests] is the number of [startRequest] calls, [errors] the
    number of [recordError] calls, [activeRequests] the starts minus the
    ends, and [totalResponseTime] the sum of all response times measured. *)
Theorem counters_count_calls (ops : list Op) :
  totalRequests (applyAll ops fresh) = countStarts ops /\
  errors (applyAll ops fresh) = Js.length (errorLog ops) /\
  activeRequests (applyAll ops fresh) = countStarts ops - countEnds ops /\
  totalResponseTime (applyAll ops fresh) = foldr Z.add 0 (latencies ops).
Proof.
  induction ops as [| o ops (IHt & IHe & IHa & IHs)] using rev_ind; [done |].
  rewrite applyAll_snoc, latencies_snoc, errorLog_snoc, countStarts_snoc,
    countEnds_snoc.
  unfold Js.length in *. rewrite length_app, foldr_app.
  destruct o as [now suffix | requestId startTime now | now]; simpl;
    rewrite ?IHt, ?IHe, ?IHa, ?IHs; repeat split; try lia.
  clear. induction (latencies ops) as [| x l IH]; simpl; lia.
Qed.

Lemma recent_le_window (now : Z) (times : list Z) :
  (List.length (List.filter (fun time => time >? now - 5 * 60 * 1000) times)
   <= List.length times)%nat.
Proof. apply List.filter_length_le. Qed.

Lemma rate_of_count (n : Z) : 0 <= n <= 100 -> (0 <= inject_Z n / 5 <= 20)%Q.
Proof.
  intros [H0 H100].
  rewrite Zle_Qle in H0. rewrite Zle_Qle in H100.
  change (inject_Z 0) with 0%Q in H0. change (inject_Z 100) with 100%Q in H100.
  split.
  - apply Qle_shift_div_l; [reflexivity | lra].
  - apply Qle_shift_div_r; [reflexivity | lra].
Qed.

(** X3. The error rate [getMetrics] reports is never negative and never
    above 20 per minute: the error window keeps at most 100 times. *)
Theorem error_rate_at_most_20 (ops : list Op) (now : Z) :
  (0 <= Errors.rate (Metrics.errors (getMetrics now (applyAll ops fresh))) <= 20)%Q.
Proof.
  unfold getMetrics. simpl. apply rate_of_count. unfold Js.length.
  pose proof (recent_le_window now (errorTimes (applyAll ops fresh))) as Hle.
  destruct (windows_bound ops) as [_ Hwin]. lia.
Qed.

End TrackerRuns.

(** ** What [getMetrics] reports *)

Section TrackerReports.
Import RequestTracker.

Lemma getMetrics_average (now : Z) (s : t) :
  requestTimes s <> [] ->
  Metrics.averageResponseTime (getMetrics now s) = Js.Math_round (mean (requestTimes s)).
Proof.
  intros Hne. unfold getMetrics, mean, Js.sum, Js.length. simpl.
  destruct (requestTimes s) as [| x l]; [done |].
  by rewrite sum_foldr.
Qed.

Lemma Math_round_integer (z : Z) : Js.Math_round (inject_Z z) = z.
Proof.
  unfold Js.Math_round, Qfloor. simpl.
  symmetry. apply Z.div_unique with 1; lia.
Qed.

Lemma Math_round_le (x y : Q) : (x <= y)%Q -> Js.Math_round x <= Js.Math_round y.
Proof. intros Hle. unfold Js.Math_round. apply Qfloor_resp_le. lra. Qed.

Lemma sum_between (lo hi : Z) (l : list Z) :
  Forall (fun x => lo <= x <= hi) l ->
  lo * Z.of_nat (List.length l) <= foldr Z.add 0 l <= hi * Z.of_nat (List.length l).
Proof.
  induction 1 as [| x l Hx _ IH]; simpl List.length; simpl foldr; lia.
Qed.

Lemma mean_between (lo hi : Z) (l : list Z) :
  l <> [] ->
  Forall (fun x => lo <= x <= hi) l ->
  (inject_Z lo <= mean l <= inject_Z hi)%Q.
Proof.
  intros Hne Hall. pose proof (sum_between lo hi l Hall) as [Hlo Hhi].
  assert (Hpos : (0 < inject_Z (Z.of_nat (List.length l)))%Q).
  { change 0%Q with (inject_Z 0). rewrite <- Zlt_Qlt. destruct l; [done | simpl; lia]. }
  unfold mean. split.
  - apply Qle_shift_div_l; [done |]. rewrite <- inject_Z_mult, <- Zle_Qle. lia.
  - apply Qle_shift_div_r; [done |]. rewrite <- inject_Z_mult, <- Zle_Qle. lia.
Qed.

(** X4. The average response time [getMetrics] reports lies within the
    range of the latencies of the window: when the window is not empty and
    all its latencies are between [lo] and [hi], so is the average. *)
Theorem average_within_window_range (now lo hi : Z) (s : t)
    (Hne : requestTimes s <> [])
    (Hall : Forall (fun x => lo <= x <= hi) (requestTimes s)) :
  lo <= Metrics.averageResponseTime (getMetrics now s) <= hi.
Proof.
  rewrite getMetrics_average by done.
  destruct (mean_between lo hi _ Hne Hall) as [Hlo Hhi].
  apply Math_round_le in Hlo. apply Math_round_le in Hhi.
  rewrite Math_round_integer in Hlo, Hhi. lia.
Qed.

Lemma recent_none (now : Z) (times : list Z) :
  List.filter (fun time => time >? now - 5 * 60 * 1000) times = [] <->
  Forall (fun time => 5 * 60 * 1000 <= now - time) times.
Proof.
  induction times as [| time times IH]; simpl.
  - split; [constructor | done].
  - destruct (Z.gtb_spec time (now - 5 * 60 * 1000)).
    + split; [done |]. intros Hall. inversion Hall; subst. lia.
    + rewrite IH. split; [intros; constructor; [lia | done] |].
      intros Hall. by inversion Hall.
Qed.

(** X5. The reported error rate is zero exactly when every error time of
    the window is at least five minutes old; [errors.total] still counts
    them. *)
Theorem error_rate_zero_iff_all_old (now : Z) (s : t) :
  ((Errors.rate (Metrics.errors (getMetrics now s)) == 0)%Q <->
   Forall (fun time => 5 * 60 * 1000 <= now - time) (errorTimes s)) /\
  Errors.total (Metrics.errors (getMetrics now s)) = errors s.
Proof.
  split; [| reflexivity].
  rewrite <- recent_none. unfold getMetrics, Js.length. simpl.
  set (recent := List.filter _ _).
  split.
  - intros Hzero. destruct recent as [| x l]; [done |].
    exfalso. revert Hzero. unfold Qeq. simpl. lia.
  - intros ->. reflexivity.
Qed.

Lemma recordError_last (time : Z) (s : t) :
  exists older, errorTimes (recordError time s) = older ++ [time].
Proof.
  unfold recordError, Js.push, Js.shift, Js.length. simpl.
  destruct (Z.gtb_spec (Z.of_nat (List.length (errorTimes s ++ [time]))) 100)
    as [Hfull | _]; [| by eexists].
  destruct (errorTimes s) as [| t0 rest]; [simpl in Hfull; lia |].
  by exists rest.
Qed.

(** X6. An error recorded less than five minutes ago is counted: right
    after [recordError] at [time], the rate reported at [now] is at least
    one fifth per minute, however full the error window was. *)
Theorem recorded_error_is_counted (time now : Z) (s : t)
    (Hrecent : now - time < 5 * 60 * 1000) :
  (1 # 5 <= Errors.rate (Metrics.errors (getMetrics now (recordError time s))))%Q.
Proof.
  destruct (recordError_last time s) as [older Hlast].
  change (Errors.rate (Metrics.errors (getMetrics now (recordError time s))))
    with (inject_Z (Z.of_nat (List.length
            (List.filter (fun t => t >? now - 5 * 60 * 1000)
               (errorTimes (recordError time s))))) / 5)%Q.
  rewrite Hlast, List.filter_app, length_app. simpl.
  destruct (Z.gtb_spec time (now - 5 * 60 * 1000)); [| lia].
  simpl. set (n := List.length _).
  apply Qle_shift_div_l; [reflexivity |].
  unfold Qle. cbn [Qnum Qden Qmult inject_Z]. lia.
Qed.

End TrackerReports.

(** ** The built-in probes, further *)

Section ProbeBands.
Import BuiltInProbes.
Context {W : Type} {sys : SystemMetrics W} {show : NumberToString}.

(** The three-way comparison both probes make. *)
Lemma band_reading_mono (t u1 u2 : Q) :
  (u1 <= u2)%Q ->
  severity (if gt u1 t then critical else if gt u1 (t * 0.8)%Q then warning else healthy)
  <= severity (if gt u2 t then critical else if gt u2 (t * 0.8)%Q then warning else healthy).
Proof.
  intros Hle.
  destruct (gt u1 t) eqn:H1; destruct (gt u2 t) eqn:H2;
    destruct (gt u1 (t * 0.8)%Q) eqn:H3; destruct (gt u2 (t * 0.8)%Q) eqn:H4;
    simpl; try lia;
    rewrite ?gt_true, ?gt_false in *; lra.
Qed.

Lemma band_threshold_mono (t1 t2 u : Q) :
  (t1 <= t2)%Q ->
  severity (if gt u t2 then critical else if gt u (t2 * 0.8)%Q then warning else healthy)
  <= severity (if gt u t1 then critical else if gt u (t1 * 0.8)%Q then warning else healthy).
Proof.
  intros Hle.
  destruct (gt u t1) eqn:H1; destruct (gt u t2) eqn:H2;
    destruct (gt u (t1 * 0.8)%Q) eqn:H3; destruct (gt u (t2 * 0.8)%Q) eqn:H4;
    simpl; try lia;
    rewrite ?gt_true, ?gt_false in *; lra.
Qed.

Lemma band_no_warning (t u : Q) :
  (t <= 0)%Q ->
  (if gt u t then critical else if gt u (t * 0.8)%Q then warning else healthy) <> warning.
Proof.
  intros Ht.
  destruct (gt u t) eqn:H1; destruct (gt u (t * 0.8)%Q) eqn:H2; try done.
  rewrite ?gt_true, ?gt_false in *. lra.
Qed.

(** X7. A higher reading never gets a milder status: for any threshold,
    given or defaulted, the status of the memory probe and of the CPU probe
    is monotone in the reading. *)
Theorem probe_status_monotone_in_reading (t : option Q) (w1 w2 : W) :
  (Memory.percentage (getMemoryMetrics w1) <= Memory.percentage (getMemoryMetrics w2) ->
   exists s1 s2,
     statusOf (CustomProbe.check (createMemoryProbe t) w1) = Some s1 /\
     statusOf (CustomProbe.check (createMemoryProbe t) w2) = Some s2 /\
     severity s1 <= severity s2) /\
  ((Cpu.usage (getCpuMetrics w1) <= Cpu.usage (getCpuMetrics w2))%Q ->
   exists s1 s2,
     statusOf (CustomProbe.check (createCpuProbe t) w1) = Some s1 /\
     statusOf (CustomProbe.check (createCpuProbe t) w2) = Some s2 /\
     severity s1 <= severity s2).
Proof.
  split; intros Hle.
  - rewrite !memoryProbe_status. eexists _, _. split; [done |]. split; [done |].
    apply band_reading_mono. by rewrite <- Zle_Qle.
  - rewrite !cpuProbe_status. eexists _, _. split; [done |]. split; [done |].
    by apply band_reading_mono.
Qed.

(** X8. Raising the threshold never makes a probe more severe on the same
    reading. *)
Theorem probe_status_antitone_in_threshold (t1 t2 : Q) (w : W)
    (Hle : (t1 <= t2)%Q) :
  exists m1 m2 c1 c2,
    statusOf (CustomProbe.check (createMemoryProbe (Some t1)) w) = Some m1 /\
    statusOf (CustomProbe.check (createMemoryProbe (Some t2)) w) = Some m2 /\
    statusOf (CustomProbe.check (createCpuProbe (Some t1)) w) = Some c1 /\
    statusOf (CustomProbe.check (createCpuProbe (Some t2)) w) = Some c2 /\
    severity m2 <= severity m1 /\ severity c2 <= severity c1.
Proof.
  rewrite !memoryProbe_status, !cpuProbe_status. eexists _, _, _, _.
  repeat (split; [done |]). split; by apply band_threshold_mono.
Qed.

(** X9. With a threshold of zero or less there is no warning band: the
    memory probe and the CPU probe answer critical above the threshold and
    healthy otherwise. *)
Theorem no_warning_below_zero_threshold (t : Q) (w : W) (Ht : (t <= 0)%Q) :
  statusOf (CustomProbe.check (createMemoryProbe (Some t)) w) <> Some warning /\
  statusOf (CustomProbe.check (createCpuProbe (Some t)) w) <> Some warning.
Proof.
  rewrite memoryProbe_status, cpuProbe_status. simpl default.
  split; intros [= Heq]; by apply band_no_warning in Heq.
Qed.

End ProbeBands.

Section RuntimeProbeFacts.
Import BuiltInProbes.
Context {W : Type} {node : NodeRuntime W} {show : NumberToString}.

Lemma truncate_nonneg (x : Q) : (0 <= x)%Q -> Js.truncate x = Qfloor x.
Proof.
  intros Hx. unfold Js.truncate.
  by apply Qle_bool_iff in Hx as ->.
Qed.

Lemma uptime_split (uptime : Q) :
  (0 <= uptime)%Q ->
  let hours := uptimeHours uptime in
  let minutes := uptimeMinutes uptime in
  0 <= hours /\ 0 <= minutes < 60 /\
  (inject_Z (3600 * hours + 60 * minutes) <= uptime)%Q /\
  (uptime < inject_Z (3600 * hours + 60 * minutes + 60))%Q.
Proof.
  intros Hpos hours minutes.
  set (q := (uptime / 3600)%Q).
  assert (Hq : (uptime == q * 3600)%Q) by (unfold q; field).
  assert (Hh : hours = Qfloor q) by reflexivity.
  pose proof (Qfloor_le q) as Hh1. pose proof (Qlt_floor q) as Hh2.
  rewrite <- Hh in Hh1, Hh2.
  rewrite inject_Z_plus in Hh2. change (inject_Z 1) with 1%Q in Hh2.
  assert (Hrem : (Js.rem uptime 3600 == uptime - 3600 * inject_Z hours)%Q).
  { unfold Js.rem. fold q. rewrite truncate_nonneg by lra. by rewrite <- Hh. }
  set (r := (Js.rem uptime 3600 / 60)%Q).
  assert (Hr : (Js.rem uptime 3600 == r * 60)%Q) by (unfold r; field).
  assert (Hm : minutes = Qfloor r) by reflexivity.
  pose proof (Qfloor_le r) as Hm1. pose proof (Qlt_floor r) as Hm2.
  rewrite <- Hm in Hm1, Hm2.
  rewrite inject_Z_plus in Hm2. change (inject_Z 1) with 1%Q in Hm2.
  rewrite Hrem in Hr.
  assert (Hhours : (0 <= inject_Z hours)%Q).
  { change 0%Q with (inject_Z 0). rewrite <- Zle_Qle, Hh.
    change 0 with (Qfloor 0). apply Qfloor_resp_le. lra. }
  assert (Hminutes : (0 <= inject_Z minutes)%Q).
  { change 0%Q with (inject_Z 0). rewrite <- Zle_Qle, Hm.
    change 0 with (Qfloor 0). apply Qfloor_resp_le. lra. }
  assert (Hlt60 : (inject_Z minutes < 60)%Q) by lra.
  change 0%Q with (inject_Z 0) in Hhours, Hminutes.
  change 60%Q with (inject_Z 60) in Hlt60.
  rewrite <- Zle_Qle in Hhours, Hminutes. rewrite <- Zlt_Qlt in Hlt60.
  rewrite !inject_Z_plus, !inject_Z_mult.
  change (inject_Z 3600) with 3600%Q. change (inject_Z 60) with 60%Q.
  repeat split; try lia; lra.
Qed.

(** X10. The uptime probe is always healthy and never throws; for a
    non-negative uptime its message names the whole hours and the whole
    minutes of the hour under way, and its value is the uptime itself. *)
Theorem uptimeProbe_reports_hours_and_minutes (w : W)
    (Hpos : (0 <= process_uptime w)%Q) :
  exists hours minutes,
    CustomProbe.check createUptimeProbe w =
      Js.Normal
        {| ProbeResult.status := healthy;
           ProbeResult.message :=
             Some ("Application has been running for "
                   +:+ numberToString (inject_Z hours) +:+ "h "
                   +:+ numberToString (inject_Z minutes) +:+ "m");
           ProbeResult.value := Some (process_uptime w);
           ProbeResult.metadata := None |} /\
    0 <= hours /\ 0 <= minutes < 60 /\
    (inject_Z (3600 * hours + 60 * minutes) <= process_uptime w)%Q /\
    (process_uptime w < inject_Z (3600 * hours + 60 * minutes + 60))%Q.
Proof.
  exists (uptimeHours (process_uptime w)), (uptimeMinutes (process_uptime w)).
  split; [reflexivity |]. by apply uptime_split.
Qed.

(** X11. The disk probe never throws: it answers healthy exactly when
    [process.cwd()] and [fs.statSync] of that directory both succeed, and
    critical in every other case. *)
Theorem diskProbe_never_throws (w : W) :
  exists r,
    CustomProbe.check createDiskSpaceProbe w = Js.Normal r /\
    (ProbeResult.status r = healthy <->
       exists dir, process_cwd w = Js.Normal dir /\ fs_statSync w dir = Js.Normal tt) /\
    (ProbeResult.status r <> healthy -> ProbeResult.status r = critical) /\
    ProbeResult.message r =
      Some (if decide (ProbeResult.status r = healthy)
            then "Disk space check completed" else "Cannot access disk space").
Proof.
  unfold createDiskSpaceProbe. simpl.
  destruct (process_cwd w) as [dir | e] eqn:Hcwd; simpl.
  - destruct (fs_statSync w dir) as [[] | e] eqn:Hstat; simpl.
    + eexists. split; [done |]. simpl.
      split; [| done]. split; [by exists dir | done].
    + eexists. split; [done |]. simpl. split; [| done].
      split; [done |]. intros (dir' & [= <-] & Hok). congruence.
  - eexists. split; [done |]. simpl. split; [| done].
    split; [done |]. by intros (dir & ? & _).
Qed.

End RuntimeProbeFacts.

(** ** The probe-result table over many executions *)

Section Table.
Import MonitoringService.
Context {W : Type} {sys : SystemMetrics W}.

(** Whatever the check does, an execution completes normally and writes
    one entry. *)
Lemma executeProbe_settled (probe : CustomProbe.t W) (w : W)
    (table : gmap string ProbeResult.t) :
  executeProbe probe w table
  = (Js.Normal tt, <[CustomProbe.name probe := settled probe w]> table).
Proof.
  unfold executeProbe, tryCatch, bind, await, probeResults_set, settled, errorText.
  by destruct (CustomProbe.check probe w) as [r | []].
Qed.

Lemma executions_snoc (runs : list (CustomProbe.t W * W)) (run : CustomProbe.t W * W)
    (table : gmap string ProbeResult.t) :
  executions (runs ++ [run]) table
  = <[CustomProbe.name run.1 := settled run.1 run.2]> (executions runs table).
Proof.
  unfold executions. rewrite fold_left_app. simpl. by rewrite executeProbe_settled.
Qed.

(** X12. Last write wins: after any sequence of probe executions the
    table holds, for each name, what the most recent execution of a probe
    of that name left, failure or not, and the entry it had before when no
    such probe ran; the names in the table are the old ones and those of
    the probes that ran, one entry each. *)
Theorem executions_last_write_wins
    (runs : list (CustomProbe.t W * W)) (table : gmap string ProbeResult.t)
    (name : string) :
  executions runs table !! name
  = match last (filter (fun run => CustomProbe.name run.1 = name) runs) with
    | Some run => Some (settled run.1 run.2)
    | None => table !! name
    end /\
  dom (executions runs table)
  = dom table ∪ list_to_set ((fun run => CustomProbe.name run.1) <$> runs).
Proof.
  induction runs as [| run runs [IHlook IHdom]] using rev_ind.
  - split; [done |]. simpl. by rewrite (right_id_L ∅ (∪)).
  - rewrite executions_snoc, filter_app, fmap_app, list_to_set_app_L, dom_insert_L.
    split.
    2: { rewrite IHdom. simpl. rewrite (right_id_L ∅ (∪)).
         rewrite (comm_L (∪) {[_]}). by rewrite (assoc_L (∪)). }
    rewrite filter_cons, filter_nil. case_decide as Hname.
    + rewrite last_snoc, <- Hname. apply lookup_insert_eq.
    + rewrite app_nil_r, lookup_insert_ne by done. apply IHlook.
Qed.

Lemma getOverallStatus_healthy (probes : gmap string ProbeResult.t) :
  getOverallStatus probes = healthy <->
  forall name r, probes !! name = Some r -> ProbeResult.status r = healthy.
Proof.
  unfold getOverallStatus.
  repeat case_bool_decide;
    repeat match goal with H : context [_ ∈ _] |- _ => rewrite elem_of_statuses in H end.
  - split; [done |]. intros Hall. destruct H as (name & r & Hr & Hst).
    specialize (Hall name r Hr). congruence.
  - split; [done |]. intros Hall. destruct H0 as (name & r & Hr & Hst).
    specialize (Hall name r Hr). congruence.
  - split; [| done]. intros _ name r Hr.
    destruct (ProbeResult.status r) eqn:Hst; [done | |]; exfalso.
    + apply H0. by exists name, r.
    + apply H. by exists name, r.
Qed.

Lemma getOverallStatus_critical (probes : gmap string ProbeResult.t) :
  has_status critical probes -> getOverallStatus probes = critical.
Proof.
  intros Hcrit. unfold getOverallStatus.
  case_bool_decide as Hin; [done |]. by rewrite elem_of_statuses in Hin.
Qed.

(** X13. The health handler answers 200 exactly when every stored probe
    result is healthy, and 503 otherwise: one warning is enough for 503. *)
Theorem health_200_iff_all_healthy
    (w : W) (tracker : RequestTracker.t) (clock : Clock.t)
    (npm_package_version : option string) (s : t W) :
  let response := healthCheckHandler w tracker clock npm_package_version s in
  let allHealthy := forall name r,
      probeResults s !! name = Some r -> ProbeResult.status r = healthy in
  (Response.statusCode response = 200 <-> allHealthy) /\
  (Response.statusCode response = 503 <-> ~ allHealthy) /\
  (HealthBody.status (Response.body response) = healthy <-> allHealthy) /\
  HealthBody.probes (Response.body response) = probeResults s.
Proof.
  cbv zeta. rewrite <- getOverallStatus_healthy.
  unfold healthCheckHandler. simpl.
  case_decide as Hst; repeat split; try done; intros; congruence.
Qed.

(** X14. An execution that leaves a critical result, as every failing
    check does, turns the health answer to 503 with status critical,
    whatever the other probes have stored. *)
Theorem critical_execution_gives_503
    (probe : CustomProbe.t W) (wProbe w : W) (tracker : RequestTracker.t)
    (clock : Clock.t) (npm_package_version : option string) (s : t W)
    (Hcritical : ProbeResult.status (settled probe wProbe) = critical) :
  let after := (probeExecution probe wProbe s).2 in
  let response := healthCheckHandler w tracker clock npm_package_version after in
  Response.statusCode response = 503 /\
  HealthBody.status (Response.body response) = critical.
Proof.
  cbv zeta. unfold probeExecution, onTable. rewrite executeProbe_settled.
  unfold healthCheckHandler. simpl.
  rewrite getOverallStatus_critical; [done |].
  exists (CustomProbe.name probe), (settled probe wProbe).
  by rewrite lookup_insert_eq.
Qed.

Lemma settled_failure (probe : CustomProbe.t W) (w : W) (c : Js.Thrown) :
  CustomProbe.check probe w = Js.Throw c ->
  ProbeResult.status (settled probe w) = critical.
Proof. intros Hfail. unfold settled. by rewrite Hfail. Qed.

End Table.

(** ** The history handler, further *)

Section HistoryHandler.
Import MonitoringService.
Context {W : Type} {sys : SystemMetrics W}.

Lemma index_last {A} (l : list A) : Js.index l (Js.length l - 1) = last l.
Proof.
  unfold Js.index, Js.length. rewrite last_lookup.
  destruct l as [| x l]; [done |].
  destruct (Z.ltb_spec (Z.of_nat (List.length (x :: l)) - 1) 0) as [Hneg | _];
    [simpl in Hneg; lia |].
  f_equal. simpl List.length. lia.
Qed.

Lemma slice_suffix {A} (l : list A) (start : Z) :
  exists k, (k <= List.length l)%nat /\ Js.slice l start = drop k l.
Proof.
  unfold Js.slice, Js.length.
  destruct (Z.ltb_spec start 0).
  - exists (Z.to_nat (Z.max (Z.of_nat (List.length l) + start) 0)).
    split; [| done].
    destruct (Z.max_spec (Z.of_nat (List.length l) + start) 0) as [[? ->] | [? ->]]; lia.
  - exists (Z.to_nat (Z.min start (Z.of_nat (List.length l)))).
    split; [| done].
    destruct (Z.min_spec start (Z.of_nat (List.length l))) as [[? ->] | [? ->]]; lia.
Qed.

Lemma slice_mostRecent {A} (l : list A) (n : Z) :
  0 < n -> Js.slice l (- n) = mostRecent (Z.to_nat n) l.
Proof.
  intros Hn. unfold Js.slice, Js.length, mostRecent.
  destruct (Z.ltb_spec (- n) 0); [| lia]. f_equal. lia.
Qed.

Lemma last_mostRecent {A} (n : nat) (l : list A) :
  (0 < n)%nat -> last (mostRecent n l) = last l.
Proof.
  intros Hn. unfold mostRecent. rewrite !last_lookup, length_drop, lookup_drop.
  destruct l as [| x l]; [done |]. f_equal. simpl List.length. lia.
Qed.

Lemma mostRecent_mostRecent {A} (n m : nat) (l : list A) :
  (n <= m)%nat -> mostRecent n (mostRecent m l) = mostRecent n l.
Proof.
  intros Hle. unfold mostRecent. rewrite length_drop, drop_drop. f_equal. lia.
Qed.

(** X15. Whatever the [limit], the handler answers 200 with a suffix of
    the history in its order, never more than the history holds; [count]
    is the number of snapshots returned and [latest] the last of them,
    undefined when none is returned. *)
Theorem metricsHistoryHandler_returns_suffix (limit : option string) (s : t W) :
  let response := metricsHistoryHandler limit s in
  let metrics := HistoryBody.metrics (Response.body response) in
  Response.statusCode response = 200 /\
  (exists k, (k <= List.length (metricsHistory s))%nat /\
             metrics = drop k (metricsHistory s)) /\
  HistoryBody.count (Response.body response) = Z.of_nat (List.length metrics) /\
  HistoryBody.latest (Response.body response) = last metrics.
Proof.
  cbv zeta. unfold metricsHistoryHandler. simpl.
  split; [done |]. split; [apply slice_suffix |]. split; [done |].
  apply index_last.
Qed.

(** X16. A [limit] that [parseInt] reads as a positive number [n] gives
    the [n] most recent snapshots, all of them when the history is
    shorter; [count] is the smaller of [n] and the length of the history,
    and [latest] is the newest snapshot of the history. *)
Theorem metricsHistoryHandler_positive_limit (limit : option string) (n : Z) (s : t W)
    (Hparse : Js.parseInt (Js.toStringOpt limit) = Some n) (Hn : 0 < n) :
  let body := Response.body (metricsHistoryHandler limit s) in
  HistoryBody.metrics body = mostRecent (Z.to_nat n) (metricsHistory s) /\
  HistoryBody.count body = Z.min n (Z.of_nat (List.length (metricsHistory s))) /\
  HistoryBody.latest body = last (metricsHistory s).
Proof.
  cbv zeta. unfold metricsHistoryHandler. simpl. rewrite Hparse.
  assert (Js.orDefault (Some n) 50 = n) as -> by (destruct n; done).
  rewrite index_last, slice_mostRecent by done.
  split; [done |]. split.
  - unfold Js.length. rewrite length_mostRecent. lia.
  - apply last_mostRecent. lia.
Qed.

(** X17. History and handler together: after any number of collection
    ticks from an empty history, a request without a usable [limit] gets
    the 50 most recent snapshots collected, oldest first, and the newest
    one as [latest]. *)
Theorem default_history_after_ticks
    (inputs : list (TickInput W)) (limit : option string) (s : t W)
    (Hempty : metricsHistory s = [])
    (Hlimit : Js.parseInt (Js.toStringOpt limit) = None \/
              Js.parseInt (Js.toStringOpt limit) = Some 0) :
  let body := Response.body (metricsHistoryHandler limit (ticks inputs s)) in
  HistoryBody.metrics body = mostRecent 50 (collected inputs s) /\
  HistoryBody.count body = Z.min 50 (Z.of_nat (List.length inputs)) /\
  HistoryBody.latest body = last (collected inputs s).
Proof.
  cbv zeta.
  assert (Hhist : metricsHistory (ticks inputs s) = mostRecent 100 (collected inputs s)).
  { rewrite ticks_history by (rewrite Hempty; simpl; lia). by rewrite Hempty. }
  assert (Hmetrics : HistoryBody.metrics
                       (Response.body (metricsHistoryHandler limit (ticks inputs s)))
                     = mostRecent 50 (collected inputs s)).
  { rewrite metricsHistoryHandler_default by done.
    rewrite Hhist. apply mostRecent_mostRecent. lia. }
  split; [done |].
  change (HistoryBody.count (Response.body (metricsHistoryHandler limit (ticks inputs s))))
    with (Js.length (HistoryBody.metrics
                       (Response.body (metricsHistoryHandler limit (ticks inputs s))))).
  change (HistoryBody.latest (Response.body (metricsHistoryHandler limit (ticks inputs s))))
    with (let metrics := HistoryBody.metrics
                           (Response.body (metricsHistoryHandler limit (ticks inputs s)))
          in Js.index metrics (Js.length metrics - 1)).
  cbv zeta. rewrite index_last, Hmetrics. split.
  - unfold Js.length, collected. rewrite length_mostRecent, length_fmap. lia.
  - apply last_mostRecent. lia.
Qed.

(** *** The request middleware *)

(** X18. One request through the middleware, with request tracking on:
    the total grows by one, the active count is back where it was, the
    response time from the middleware's own clock reading to the finish is
    the newest latency, and an error is recorded exactly when the status
    code is 400 or more and error tracking is on.  With request tracking
    off the middleware leaves the tracker alone. *)
Theorem middleware_request_cycle
    (enableErrorTracking : bool) (now nowToken nowEnd nowError statusCode : Z)
    (suffix : string) (tracker : RequestTracker.t) :
  (exists pending started,
     onRequest true now nowToken suffix tracker = (Some pending, started) /\
     RequestTracker.activeRequests started = RequestTracker.activeRequests tracker + 1 /\
     let finished :=
       onFinish enableErrorTracking pending statusCode nowEnd nowError started in
     RequestTracker.totalRequests finished = RequestTracker.totalRequests tracker + 1 /\
     RequestTracker.activeRequests finished = RequestTracker.activeRequests tracker /\
     last (RequestTracker.requestTimes finished) = Some (nowEnd - now) /\
     RequestTracker.errors finished
     = RequestTracker.errors tracker
       + (if decide (400 <= statusCode /\ enableErrorTracking = true) then 1 else 0)) /\
  onRequest false now nowToken suffix tracker = (None, tracker).
Proof.
  split; [| reflexivity].
  eexists _, _. split; [reflexivity |]. split; [simpl; lia |].
  cbv zeta. unfold onFinish.
  assert (Hlast : forall s, last (RequestTracker.requestTimes
                            (RequestTracker.endRequest
                               ("req_" +:+ pretty nowToken +:+ "_" +:+ suffix) now nowEnd s))
                            = Some (nowEnd - now)).
  { intros s. unfold RequestTracker.endRequest, Js.push, Js.shift, Js.length. simpl.
    destruct (Z.gtb_spec (Z.of_nat (List.length
               (RequestTracker.requestTimes s ++ [nowEnd - now]))) 100) as [Hfull | _];
      [| apply last_snoc].
    destruct (RequestTracker.requestTimes s) as [| x l]; [simpl in Hfull; lia |].
    apply last_snoc. }
  assert (Hcond : (statusCode >=? 400) && enableErrorTracking
                  = bool_decide (400 <= statusCode /\ enableErrorTracking = true)).
  { destruct (Z.geb_spec statusCode 400); destruct enableErrorTracking; simpl;
      symmetry; first [apply bool_decide_eq_true | apply bool_decide_eq_false];
      intuition (lia || congruence). }
  rewrite Hcond. clear Hcond.
  case_bool_decide as Herr; rewrite ?decide_True, ?decide_False by done;
    (split; [simpl; lia |]); (split; [simpl; lia |]); (split; [| simpl; lia]);
    apply Hlast.
Qed.

End HistoryHandler.

(** ** Construction *)

Section Built.
Import MonitoringService BuiltInProbes.
Context {W : Type} {sys : SystemMetrics W} {node : NodeRuntime W} {show : NumberToString}.

Lemma memoryProbe_normal (t : option Q) (w : W) :
  exists r, CustomProbe.check (createMemoryProbe t) w = Js.Normal r.
Proof. simpl. repeat case_match; by eexists. Qed.

Lemma cpuProbe_normal (t : option Q) (w : W) :
  exists r, CustomProbe.check (createCpuProbe t) w = Js.Normal r.
Proof. simpl. repeat case_match; by eexists. Qed.

Lemma diskProbe_normal (w : W) :
  exists r, CustomProbe.check createDiskSpaceProbe w = Js.Normal r.
Proof.
  simpl. destruct (process_cwd w) as [dir | e]; simpl; [| by eexists].
  destruct (fs_statSync w dir) as [[] | e]; simpl; by eexists.
Qed.

(** X19. [initializeBuiltInProbes] registers the memory, CPU, uptime and
    disk probes in that order, under the names [memory_usage],
    [cpu_usage], [uptime] and [disk_space], before the custom probes of the
    configuration in their order.  The check of a built-in probe never
    throws, so each of its executions stores the result of the check
    itself. *)
Theorem builtin_probes_first_and_never_fail
    (alertThresholds : option AlertThresholds.t)
    (customProbes : option (list (CustomProbe.t W))) :
  let probes := initializeBuiltInProbes alertThresholds customProbes [] in
  CustomProbe.name <$> probes
  = ["memory_usage"; "cpu_usage"; "uptime"; "disk_space"]
    ++ (CustomProbe.name <$> default [] customProbes) /\
  drop 4 probes = default [] customProbes /\
  forall probe w table,
    probe ∈ take 4 probes ->
    exists r, CustomProbe.check probe w = Js.Normal r /\
              executeProbe probe w table
              = (Js.Normal tt, <[CustomProbe.name probe := r]> table).
Proof.
  cbv zeta. unfold initializeBuiltInProbes.
  split; [by destruct customProbes |]. split; [by destruct customProbes |].
  intros probe w table Hin.
  assert (Hnormal : exists r, CustomProbe.check probe w = Js.Normal r).
  { assert (Hfour : probe ∈ [createMemoryProbe (alertThresholds ≫= AlertThresholds.memoryUsage);
                             createCpuProbe (alertThresholds ≫= AlertThresholds.cpuUsage);
                             createUptimeProbe; createDiskSpaceProbe])
      by (by destruct customProbes).
    clear Hin. rewrite !elem_of_cons in Hfour.
    destruct Hfour as [-> | [-> | [-> | [-> | Hnil]]]].
    - apply memoryProbe_normal.
    - apply cpuProbe_normal.
    - by eexists.
    - apply diskProbe_normal.
    - by apply elem_of_nil in Hnil. }
  destruct Hnormal as [r Hr]. exists r. split; [done |].
  by apply executeProbe_success.
Qed.

End Built.

(** ** Memory readings *)

Section MemoryReadings.
Import BuiltInProbes.

Lemma Qdiv_le_mono (x y c : Q) : (0 < c)%Q -> (x <= y)%Q -> (x / c <= y / c)%Q.
Proof.
  intros Hc Hle. unfold Qdiv. apply Qmult_le_compat_r; [done |].
  apply Qinv_le_0_compat. by apply Qlt_le_weak.
Qed.

Lemma divide_Some (x y : Z) :
  y <> 0 -> Js.divide (inject_Z x) (inject_Z y) = Some (inject_Z x / inject_Z y)%Q.
Proof.
  intros Hy. unfold Js.divide.
  destruct (Qeq_bool (inject_Z y) 0) eqn:Heq; [| done].
  apply Qeq_bool_eq in Heq. exfalso. apply Hy.
  unfold Qeq in Heq. simpl in Heq. lia.
Qed.

Lemma percent_of_ratio (x y : Z) :
  0 < y -> 0 <= x <= y ->
  0 <= Js.Math_round (inject_Z x / inject_Z y * 100)%Q <= 100.
Proof.
  intros Hy [Hx0 Hxy].
  assert (Hpos : (0 < inject_Z y)%Q)
    by (change 0%Q with (inject_Z 0); by rewrite <- Zlt_Qlt).
  assert (Hlo : (0 <= inject_Z x / inject_Z y)%Q).
  { apply Qle_shift_div_l; [done |]. rewrite Qmult_0_l.
    change 0%Q with (inject_Z 0). by rewrite <- Zle_Qle. }
  assert (Hhi : (inject_Z x / inject_Z y <= 1)%Q).
  { apply Qle_shift_div_r; [done |]. rewrite Qmult_1_l. by rewrite <- Zle_Qle. }
  assert (H0 : (inject_Z 0 <= inject_Z x / inject_Z y * 100)%Q)
    by (change (inject_Z 0) with 0%Q; lra).
  assert (H100 : (inject_Z x / inject_Z y * 100 <= inject_Z 100)%Q)
    by (change (inject_Z 100) with 100%Q; lra).
  apply Math_round_le in H0. apply Math_round_le in H100.
  rewrite Math_round_integer in H0, H100. lia.
Qed.

Lemma megabytes_mono (x y : Z) :
  0 <= x <= y ->
  0 <= Js.Math_round (inject_Z x / 1024 / 1024)%Q
    <= Js.Math_round (inject_Z y / 1024 / 1024)%Q.
Proof.
  intros [Hx0 Hxy]. rewrite Zle_Qle in Hx0, Hxy.
  split.
  - rewrite <- (Math_round_integer 0) at 1. apply Math_round_le.
    change (inject_Z 0) with 0%Q in *.
    repeat (apply Qle_shift_div_l; [reflexivity |]). lra.
  - apply Math_round_le. by repeat apply Qdiv_le_mono.
Qed.

Lemma getMemoryMetrics_percentage (raw : Collector.Raw) (m : Memory.t) :
  Collector.getMemoryMetrics raw = Some m ->
  0 < Collector.totalmem raw ->
  0 <= Collector.freemem raw <= Collector.totalmem raw ->
  0 <= Memory.percentage m <= 100.
Proof.
  intros Hsome Htotal Hfree. unfold Collector.getMemoryMetrics in Hsome.
  rewrite divide_Some in Hsome by lia.
  destruct (Js.divide _ _); [| done]. injection Hsome as <-. simpl.
  apply percent_of_ratio; lia.
Qed.

(** X20. For sane raw readings, a positive total with the free memory
    between zero and the total and a positive heap total with the used heap
    between zero and that total, [getMemoryMetrics] gives both percentages
    between 0 and 100 and, in megabytes, a used amount between zero and the
    total for the system and for the heap. *)
Theorem getMemoryMetrics_in_range (raw : Collector.Raw)
    (Htotal : 0 < Collector.totalmem raw)
    (Hfree : 0 <= Collector.freemem raw <= Collector.totalmem raw)
    (HheapTotal : 0 < Collector.heapTotal raw)
    (HheapUsed : 0 <= Collector.heapUsed raw <= Collector.heapTotal raw) :
  exists m,
    Collector.getMemoryMetrics raw = Some m /\
    0 <= Memory.percentage m <= 100 /\
    0 <= Memory.used m <= Memory.total m /\
    0 <= Heap.percentage (Memory.heap m) <= 100 /\
    0 <= Heap.used (Memory.heap m) <= Heap.total (Memory.heap m).
Proof.
  unfold Collector.getMemoryMetrics. rewrite !divide_Some by lia.
  eexists. split; [reflexivity |]. simpl.
  split; [apply percent_of_ratio; lia |].
  split; [apply megabytes_mono; lia |].
  split; [by apply percent_of_ratio | by apply megabytes_mono].
Qed.

(** A total of zero makes a percentage that is not a finite number. *)
Lemma getMemoryMetrics_None (raw : Collector.Raw) :
  Collector.getMemoryMetrics raw = None <->
  Collector.totalmem raw = 0 \/ Collector.heapTotal raw = 0.
Proof.
  unfold Collector.getMemoryMetrics. split.
  - intros Hnone.
    destruct (decide (Collector.totalmem raw = 0)) as [| Ht]; [by left |].
    destruct (decide (Collector.heapTotal raw = 0)) as [| Hh]; [by right |].
    by rewrite !divide_Some in Hnone by done.
  - intros [-> | ->]; [done |]. by destruct (Js.divide _ _).
Qed.

(** X21. With a threshold of 100 or more the memory probe is never
    critical on a reading [getMemoryMetrics] computes from a positive total
    and a free amount between zero and the total. *)
Theorem memoryProbe_never_critical_at_100
    {W : Type} {sys : SystemMetrics W} {show : NumberToString}
    (raw : Collector.Raw) (t : Q) (w : W)
    (Hreading : Collector.getMemoryMetrics raw = Some (getMemoryMetrics w))
    (Htotal : 0 < Collector.totalmem raw)
    (Hfree : 0 <= Collector.freemem raw <= Collector.totalmem raw)
    (Ht : (100 <= t)%Q) :
  statusOf (CustomProbe.check (createMemoryProbe (Some t)) w) <> Some critical.
Proof.
  pose proof (getMemoryMetrics_percentage raw _ Hreading Htotal Hfree) as [_ Hle].
  rewrite memoryProbe_status. simpl default.
  assert (gt (inject_Z (Memory.percentage (getMemoryMetrics w))) t = false) as ->.
  { apply gt_false. rewrite Zle_Qle in Hle.
    change (inject_Z 100) with 100%Q in Hle. lra. }
  by destruct (gt _ _).
Qed.

End MemoryReadings.

(** ** The further properties at concrete inputs *)

Lemma average_within_window_range_of_1_and_2 :
  let s := RequestTracker.run
             [RequestTracker.EndRequest "req_0_a" 0 1;
              RequestTracker.EndRequest "req_0_b" 0 2] RequestTracker.fresh in
  RequestTracker.requestTimes s <> [] /\
  Forall (fun x => 1 <= x <= 2) (RequestTracker.requestTimes s) /\
  1 <= RequestTracker.Metrics.averageResponseTime (RequestTracker.getMetrics 2 s) <= 2.
Proof.
  intros s.
  assert (Hne : RequestTracker.requestTimes s <> []) by done.
  assert (Hall : Forall (fun x => 1 <= x <= 2) (RequestTracker.requestTimes s))
    by (repeat constructor; lia).
  split; [exact Hne |]. split; [exact Hall |].
  exact (average_within_window_range 2 1 2 s Hne Hall).
Defined.

Lemma recorded_error_is_counted_after_a_second :
  1000 - 0 < 5 * 60 * 1000 /\
  (1 # 5 <= Errors.rate
              (RequestTracker.Metrics.errors
                 (RequestTracker.getMetrics 1000
                    (RequestTracker.recordError 0 RequestTracker.fresh))))%Q.
Proof.
  assert (Hrecent : 1000 - 0 < 5 * 60 * 1000) by lia.
  split; [exact Hrecent |].
  exact (recorded_error_is_counted 0 1000 RequestTracker.fresh Hrecent).
Defined.

Lemma probe_status_monotone_from_65_to_85 :
  exists s1 s2,
    statusOf (CustomProbe.check
                (BuiltInProbes.createMemoryProbe (show := Readings.wholeToString) None)
                (Readings.at_ 65 10%Q)) = Some s1 /\
    statusOf (CustomProbe.check
                (BuiltInProbes.createMemoryProbe (show := Readings.wholeToString) None)
                (Readings.at_ 85 90%Q)) = Some s2 /\
    severity s1 <= severity s2.
Proof.
  destruct (probe_status_monotone_in_reading (show := Readings.wholeToString) None
              (Readings.at_ 65 10%Q) (Readings.at_ 85 90%Q)) as [Hmemory _].
  apply Hmemory. simpl. lia.
Defined.

Lemma probe_status_antitone_from_50_to_80 :
  (50 <= 80)%Q /\
  exists m1 m2 c1 c2,
    statusOf (CustomProbe.check
                (BuiltInProbes.createMemoryProbe (show := Readings.wholeToString)
                   (Some 50%Q)) (Readings.at_ 65 65%Q)) = Some m1 /\
    statusOf (CustomProbe.check
                (BuiltInProbes.createMemoryProbe (show := Readings.wholeToString)
                   (Some 80%Q)) (Readings.at_ 65 65%Q)) = Some m2 /\
    statusOf (CustomProbe.check
                (BuiltInProbes.createCpuProbe (show := Readings.wholeToString)
                   (Some 50%Q)) (Readings.at_ 65 65%Q)) = Some c1 /\
    statusOf (CustomProbe.check
                (BuiltInProbes.createCpuProbe (show := Readings.wholeToString)
                   (Some 80%Q)) (Readings.at_ 65 65%Q)) = Some c2 /\
    severity m2 <= severity m1 /\ severity c2 <= severity c1.
Proof.
  assert (Hle : (50 <= 80)%Q) by (unfold Qle; simpl; lia).
  split; [exact Hle |].
  exact (probe_status_antitone_in_threshold (show := Readings.wholeToString)
           50%Q 80%Q (Readings.at_ 65 65%Q) Hle).
Defined.

Lemma no_warning_at_zero_threshold :
  (0 <= 0)%Q /\
  statusOf (CustomProbe.check
              (BuiltInProbes.createMemoryProbe (show := Readings.wholeToString)
                 (Some 0%Q)) (Readings.at_ 0 0%Q)) <> Some warning.
Proof.
  assert (Hle : (0 <= 0)%Q) by (unfold Qle; simpl; lia).
  split; [exact Hle |].
  exact (proj1 (no_warning_below_zero_threshold (show := Readings.wholeToString)
                  0%Q (Readings.at_ 0 0%Q) Hle)).
Defined.

Lemma uptimeProbe_reports_1h_23m :
  (0 <= process_uptime (Readings.at_ 4 0%Q))%Q /\
  exists hours minutes,
    statusOf (CustomProbe.check
                (BuiltInProbes.createUptimeProbe (show := Readings.wholeToString))
                (Readings.at_ 4 0%Q)) = Some healthy /\
    0 <= hours /\ 0 <= minutes < 60 /\
    (inject_Z (3600 * hours + 60 * minutes) <= 5025)%Q /\
    (5025 < inject_Z (3600 * hours + 60 * minutes + 60))%Q.
Proof.
  assert (Hpos : (0 <= process_uptime (Readings.at_ 4 0%Q))%Q)
    by (unfold Qle; simpl; lia).
  split; [exact Hpos |].
  destruct (uptimeProbe_reports_hours_and_minutes (show := Readings.wholeToString)
              (Readings.at_ 4 0%Q) Hpos) as (hours & minutes & Hcheck & Hbounds).
  exists hours, minutes. rewrite Hcheck. split; [reflexivity | exact Hbounds].
Defined.

Lemma critical_execution_gives_503_for_rejection :
  ProbeResult.status (settled Readings.rejectingProbe (Readings.at_ 4 0%Q)) = critical /\
  MonitoringService.Response.statusCode
    (MonitoringService.healthCheckHandler (Readings.at_ 4 0%Q) RequestTracker.fresh
       (MonitoringService.clock (Readings.tickAt 1000)) None
       (MonitoringService.probeExecution Readings.rejectingProbe (Readings.at_ 4 0%Q)
          Readings.started).2) = 503.
Proof.
  assert (Hcritical : ProbeResult.status
                        (settled Readings.rejectingProbe (Readings.at_ 4 0%Q)) = critical)
    by reflexivity.
  split; [exact Hcritical |].
  exact (proj1 (critical_execution_gives_503 Readings.rejectingProbe
                  (Readings.at_ 4 0%Q) (Readings.at_ 4 0%Q) RequestTracker.fresh
                  (MonitoringService.clock (Readings.tickAt 1000)) None
                  Readings.started Hcritical)).
Defined.

Lemma metricsHistoryHandler_limit_2 :
  Js.parseInt (Js.toStringOpt (Some "2")) = Some 2 /\
  MonitoringService.HistoryBody.metrics
    (MonitoringService.Response.body
       (MonitoringService.metricsHistoryHandler (Some "2") Readings.threeSnapshots))
  = mostRecent 2 (MonitoringService.metricsHistory Readings.threeSnapshots).
Proof.
  assert (Hparse : Js.parseInt (Js.toStringOpt (Some "2")) = Some 2) by reflexivity.
  assert (Hpos : 0 < 2) by lia.
  split; [exact Hparse |].
  exact (proj1 (metricsHistoryHandler_positive_limit (Some "2") 2
                  Readings.threeSnapshots Hparse Hpos)).
Defined.

Lemma default_history_after_three_ticks :
  let inputs := Readings.tickAt <$> [30000; 60000; 90000] in
  MonitoringService.metricsHistory Readings.started = [] /\
  MonitoringService.HistoryBody.metrics
    (MonitoringService.Response.body
       (MonitoringService.metricsHistoryHandler None
          (MonitoringService.ticks inputs Readings.started)))
  = mostRecent 50 (MonitoringService.collected inputs Readings.started).
Proof.
  intros inputs.
  assert (Hempty : MonitoringService.metricsHistory Readings.started = []) by reflexivity.
  assert (Hlimit : Js.parseInt (Js.toStringOpt None) = None \/
                   Js.parseInt (Js.toStringOpt None) = Some 0) by (left; reflexivity).
  split; [exact Hempty |].
  exact (proj1 (default_history_after_ticks inputs None Readings.started Hempty Hlimit)).
Defined.

Lemma builtin_uptime_probe_never_fails :
  let uptimeProbe := BuiltInProbes.createUptimeProbe (W := Readings.t)
                       (show := Readings.wholeToString) in
  let probes := MonitoringService.initializeBuiltInProbes (W := Readings.t)
                  (show := Readings.wholeToString) None None [] in
  uptimeProbe ∈ take 4 probes /\
  exists r, CustomProbe.check uptimeProbe (Readings.at_ 4 0%Q) = Js.Normal r.
Proof.
  intros uptimeProbe probes.
  assert (Hin : uptimeProbe ∈ take 4 probes)
    by (simpl; do 2 apply list_elem_of_further; apply list_elem_of_here).
  split; [exact Hin |].
  destruct (builtin_probes_first_and_never_fail (show := Readings.wholeToString)
              None None) as (_ & _ & Hall).
  destruct (Hall uptimeProbe (Readings.at_ 4 0%Q) ∅ Hin) as (r & Hr & _).
  exists r. exact Hr.
Defined.

Lemma getMemoryMetrics_in_range_half_used :
  0 < Collector.totalmem Runtime.halfUsed /\
  exists m, Collector.getMemoryMetrics Runtime.halfUsed = Some m /\
            0 <= Memory.percentage m <= 100.
Proof.
  assert (Htotal : 0 < Collector.totalmem Runtime.halfUsed) by (simpl; lia).
  assert (Hfree : 0 <= Collector.freemem Runtime.halfUsed
                  <= Collector.totalmem Runtime.halfUsed) by (simpl; lia).
  assert (HheapTotal : 0 < Collector.heapTotal Runtime.halfUsed) by (simpl; lia).
  assert (HheapUsed : 0 <= Collector.heapUsed Runtime.halfUsed
                      <= Collector.heapTotal Runtime.halfUsed) by (simpl; lia).
  split; [exact Htotal |].
  destruct (getMemoryMetrics_in_range Runtime.halfUsed Htotal Hfree HheapTotal HheapUsed)
    as (m & Hm & Hpercentage & _).
  exists m. split; [exact Hm | exact Hpercentage].
Defined.

Lemma memoryProbe_never_critical_at_100_half_used :
  Collector.getMemoryMetrics Runtime.halfUsed
    = Some (getMemoryMetrics (Readings.at_ 50 0%Q)) /\
  statusOf (CustomProbe.check
              (BuiltInProbes.createMemoryProbe (show := Readings.wholeToString)
                 (Some 100%Q)) (Readings.at_ 50 0%Q)) <> Some critical.
Proof.
  assert (Hreading : Collector.getMemoryMetrics Runtime.halfUsed
                     = Some (getMemoryMetrics (Readings.at_ 50 0%Q))) by reflexivity.
  assert (Htotal : 0 < Collector.totalmem Runtime.halfUsed) by (simpl; lia).
  assert (Hfree : 0 <= Collector.freemem Runtime.halfUsed
                  <= Collector.totalmem Runtime.halfUsed) by (simpl; lia).
  assert (Ht : (100 <= 100)%Q) by (unfold Qle; simpl; lia).
  split; [exact Hreading |].
  exact (memoryProbe_never_critical_at_100 (show := Readings.wholeToString)
           Runtime.halfUsed 100%Q (Readings.at_ 50 0%Q) Hreading Htotal Hfree Ht).
Defined.

(** ** The 0.8 boundary of the memory and CPU probes, in binary64 *)

Section DoubleFacts.
Import Double.

Lemma pow2_pos (k : Z) : (0 < pow2 k)%Q.
Proof. apply Qpower_0_lt. reflexivity. Qed.

Lemma pow2_le (a b : Z) : a <= b -> (pow2 a <= pow2 b)%Q.
Proof. intros Hle. apply Qpower_le_compat_l; [exact Hle | discriminate]. Qed.

Lemma pow2_lt_inv (a b : Z) : (pow2 a < pow2 b)%Q -> a < b.
Proof. intros Hlt. apply (Qpower_lt_compat_l_inv 2); [exact Hlt | reflexivity]. Qed.

Lemma pow2_add (a b : Z) : (pow2 (a + b) == pow2 a * pow2 b)%Q.
Proof. apply Qpower_plus. discriminate. Qed.

Lemma pow2_Z (k : Z) : 0 <= k -> (pow2 k == inject_Z (2 ^ k))%Q.
Proof. intros Hk. unfold pow2. rewrite Zpower_Qpower by exact Hk. reflexivity. Qed.

(** [ilog2] is the exponent of the power of two at or below [x]. *)
Lemma ilog2_spec (x : Q) :
  (0 < x)%Q -> (pow2 (ilog2 x) <= x)%Q /\ (x < pow2 (ilog2 x + 1))%Q.
Proof.
  intros Hpos. destruct x as [n d].
  assert (Hn : 0 < n) by (unfold Qlt in Hpos; simpl in Hpos; lia).
  unfold ilog2. simpl Qnum. simpl Qden.
  set (ln := Z.log2 n). set (ld := Z.log2 (Z.pos d)).
  destruct (Z.log2_spec n Hn) as [Hn1 Hn2].
  destruct (Z.log2_spec (Z.pos d) (Pos2Z.is_pos d)) as [Hd1 Hd2].
  fold ln in Hn1, Hn2. fold ld in Hd1, Hd2.
  assert (Hln : 0 <= ln) by apply Z.log2_nonneg.
  assert (Hld : 0 <= ld) by apply Z.log2_nonneg.
  assert (Hx : (n # d == inject_Z n / inject_Z (Z.pos d))%Q) by apply Qmake_Qdiv.
  assert (Hdpos : (0 < inject_Z (Z.pos d))%Q) by reflexivity.
  rewrite Zle_Qle in Hn1, Hd1. rewrite Zlt_Qlt in Hn2, Hd2.
  rewrite <- !pow2_Z in Hn1, Hn2, Hd1, Hd2 by lia.
  assert (Hlow : (pow2 (ln - ld - 1) <= n # d)%Q).
  { rewrite Hx. apply Qle_shift_div_l; [exact Hdpos |].
    apply Qle_trans with (pow2 (ln - ld - 1) * pow2 (Z.succ ld))%Q.
    - apply Qmult_le_l; [apply pow2_pos | apply Qlt_le_weak; exact Hd2].
    - rewrite <- pow2_add. replace (ln - ld - 1 + Z.succ ld) with ln by lia.
      exact Hn1. }
  assert (Hhigh : (n # d < pow2 (ln - ld + 1))%Q).
  { rewrite Hx. apply Qlt_shift_div_r; [exact Hdpos |].
    apply Qlt_le_trans with (pow2 (ln - ld + 1) * pow2 ld)%Q.
    - rewrite <- pow2_add. replace (ln - ld + 1 + ld) with (Z.succ ln) by lia.
      exact Hn2.
    - apply Qmult_le_l; [apply pow2_pos | exact Hd1]. }
  destruct (Qle_bool (pow2 (ln - ld)) (n # d)) eqn:Hcmp.
  - split; [apply Qle_bool_iff; exact Hcmp | exact Hhigh].
  - split; [exact Hlow |].
    replace (ln - ld - 1 + 1) with (ln - ld) by lia.
    apply Qnot_le_lt. intros Hle. apply Qle_bool_iff in Hle. congruence.
Qed.

Lemma ilog2_le (x y : Q) : (0 < x)%Q -> (x <= y)%Q -> ilog2 x <= ilog2 y.
Proof.
  intros Hx Hxy.
  destruct (ilog2_spec x Hx) as [Hlow _].
  destruct (ilog2_spec y (Qlt_le_trans _ _ _ Hx Hxy)) as [_ Hhigh].
  assert (Hlt : (pow2 (ilog2 x) < pow2 (ilog2 y + 1))%Q).
  { eapply Qle_lt_trans; [exact Hlow |]. eapply Qle_lt_trans; [exact Hxy | exact Hhigh]. }
  apply pow2_lt_inv in Hlt. lia.
Qed.

Lemma Qabs_of_pos (x : Q) : (0 < x)%Q -> Qabs x = x.
Proof.
  intros Hx. destruct x as [n d]. unfold Qlt in Hx. simpl in Hx.
  unfold Qabs. f_equal. apply Z.abs_eq. lia.
Qed.

Lemma ulp_pos (x : Q) : (0 < ulp x)%Q.
Proof. apply pow2_pos. Qed.

Lemma ulp_le (x y : Q) : (0 < x)%Q -> (x <= y)%Q -> (ulp x <= ulp y)%Q.
Proof.
  intros Hx Hxy. unfold ulp, exponent. apply pow2_le.
  assert (Hy : (0 < y)%Q) by (eapply Qlt_le_trans; [exact Hx | exact Hxy]).
  rewrite (Qabs_of_pos x Hx), (Qabs_of_pos y Hy).
  pose proof (ilog2_le x y Hx Hxy). lia.
Qed.

(** Above the two smallest subnormal numbers a unit in the last place is at
    most a third of the number. *)
Lemma ulp_third (t : Q) : (3 * minSubnormal <= t)%Q -> (3 * ulp t <= t)%Q.
Proof.
  intros Ht.
  assert (Hpos : (0 < t)%Q).
  { eapply Qlt_le_trans; [| exact Ht]. reflexivity. }
  unfold ulp, exponent. rewrite (Qabs_of_pos t Hpos).
  destruct (Z.max_spec (ilog2 t) (-1022)) as [[_ ->] | [_ ->]].
  - exact Ht.
  - destruct (ilog2_spec t Hpos) as [Hlow _].
    replace (ilog2 t - 52) with (ilog2 t + -52) by lia.
    rewrite pow2_add.
    assert (Hsmall : (3 * pow2 (-52) <= 1)%Q) by (apply Qle_bool_iff; reflexivity).
    pose proof (pow2_pos (ilog2 t)) as Hp.
    set (p := pow2 (ilog2 t)) in *. set (q := pow2 (-52)) in *.
    apply Qle_trans with (p * 1)%Q; [| lra].
    rewrite Qmult_assoc, (Qmult_comm 3), <- Qmult_assoc.
    apply Qmult_le_l; [exact Hp | exact Hsmall].
Qed.

Lemma roundEven_upper (y : Q) : (inject_Z (roundEven y) <= y + (1 # 2))%Q.
Proof.
  unfold roundEven.
  pose proof (Qfloor_le y) as Hfloor.
  destruct (Qcompare_spec (y - inject_Z (Qfloor y)) (1 # 2)) as [Heq | Hlt | Hgt].
  - destruct (Z.even (Qfloor y)); [lra |].
    rewrite inject_Z_plus. change (inject_Z 1) with 1%Q. lra.
  - lra.
  - rewrite inject_Z_plus. change (inject_Z 1) with 1%Q. lra.
Qed.

Lemma round_upper (x : Q) : (0 < x)%Q -> (round x <= x + ulp x * (1 # 2))%Q.
Proof.
  intros Hx. unfold round.
  destruct (Qeq_bool x 0) eqn:Hzero.
  { apply Qeq_bool_eq in Hzero. rewrite Hzero in Hx. discriminate Hx. }
  pose proof (ulp_pos x) as Hu. set (u := ulp x) in *.
  apply Qle_trans with ((x / u + (1 # 2)) * u)%Q.
  - apply Qmult_le_compat_r; [apply roundEven_upper | apply Qlt_le_weak; exact Hu].
  - assert (Heq : ((x / u + (1 # 2)) * u == x + u * (1 # 2))%Q).
    { field. intros H0. rewrite H0 in Hu. discriminate Hu. }
    rewrite Heq. apply Qle_refl.
Qed.

(** The rounding on numbers whose doubles are known. *)
Example round_one_tenth : (round 0.1 == 3602879701896397 # 36028797018963968)%Q.
Proof. apply Qeq_bool_eq. vm_compute. reflexivity. Qed.
Example round_one_third : (round (1 # 3) == 6004799503160661 # 18014398509481984)%Q.
Proof. apply Qeq_bool_eq. vm_compute. reflexivity. Qed.
Example round_minus_one_third :
  (round (- (1 # 3)) == - (6004799503160661 # 18014398509481984))%Q.
Proof. apply Qeq_bool_eq. vm_compute. reflexivity. Qed.
Example times_3_point8 : (times 3 point8 == 1351079888211149 # 562949953421312)%Q.
Proof. apply Qeq_bool_eq. vm_compute. reflexivity. Qed.
Example round_tie_to_even_down :
  (round (inject_Z (2 ^ 53 + 1)) == inject_Z (2 ^ 53))%Q.
Proof. apply Qeq_bool_eq. vm_compute. reflexivity. Qed.
Example round_tie_to_even_up :
  (round (inject_Z (2 ^ 53 + 3)) == inject_Z (2 ^ 53 + 4))%Q.
Proof. apply Qeq_bool_eq. vm_compute. reflexivity. Qed.
Example round_half_minSubnormal : (round (minSubnormal * (1 # 2)) == 0)%Q.
Proof. apply Qeq_bool_eq. vm_compute. reflexivity. Qed.
Example round_exact : (round (5888 # 100) == round (round (5888 # 100)))%Q.
Proof. apply Qeq_bool_eq. vm_compute. reflexivity. Qed.

Lemma point8_value : (point8 == 3602879701896397 # 4503599627370496)%Q.
Proof. apply Qeq_bool_eq. vm_compute. reflexivity. Qed.

(** The product [t * 0.8], rounded, stays below [t]. *)
Lemma times_point8_below (t : Q) :
  (3 * minSubnormal <= t)%Q -> (times t point8 < t)%Q.
Proof.
  intros Ht.
  assert (Hpos : (0 < t)%Q).
  { eapply Qlt_le_trans; [| exact Ht]. reflexivity. }
  unfold times. set (x := (t * point8)%Q).
  assert (Hxval : (x == t * (3602879701896397 # 4503599627370496))%Q).
  { unfold x. rewrite point8_value. reflexivity. }
  assert (Hx : (0 < x)%Q) by lra.
  assert (Hxt : (x <= t)%Q) by lra.
  pose proof (round_upper x Hx) as Hround.
  pose proof (ulp_le x t Hx Hxt) as Hulp.
  pose proof (ulp_third t Ht) as Hthird.
  lra.
Qed.
End DoubleFacts.

Section Boundary.
Import BuiltInProbes.
Context {W : Type} {sys : SystemMetrics W} {show : NumberToString}.

Lemma memoryProbeDouble_status (t : option Q) (w : W) :
  let usage := inject_Z (Memory.percentage (getMemoryMetrics w)) in
  let threshold := default 80%Q t in
  statusOf (CustomProbe.check (BuiltInProbesDouble.createMemoryProbe t) w) =
  Some (if gt usage threshold then critical
        else if gt usage (Double.times threshold Double.point8) then warning
        else healthy).
Proof. simpl. by repeat case_match. Qed.

Lemma cpuProbeDouble_status (t : option Q) (w : W) :
  let usage := Cpu.usage (getCpuMetrics w) in
  let threshold := default 80%Q t in
  statusOf (CustomProbe.check (BuiltInProbesDouble.createCpuProbe t) w) =
  Some (if gt usage threshold then critical
        else if gt usage (Double.times threshold Double.point8) then warning
        else healthy).
Proof. simpl. by repeat case_match. Qed.

Lemma band_at_threshold (t u : Q) :
  (3 * Double.minSubnormal <= t)%Q -> (u == t)%Q ->
  (if gt u t then critical
   else if gt u (Double.times t Double.point8) then warning else healthy) = warning.
Proof.
  intros Ht Heq. pose proof (times_point8_below t Ht) as Hbelow.
  assert (gt u t = false) as -> by (apply gt_false; lra).
  assert (gt u (Double.times t Double.point8) = true) as -> by (apply gt_true; lra).
  reflexivity.
Qed.

Lemma band_at_product (t u : Q) :
  (3 * Double.minSubnormal <= t)%Q -> (u == Double.times t Double.point8)%Q ->
  (if gt u t then critical
   else if gt u (Double.times t Double.point8) then warning else healthy) = healthy.
Proof.
  intros Ht Heq. pose proof (times_point8_below t Ht) as Hbelow.
  assert (gt u t = false) as -> by (apply gt_false; lra).
  assert (gt u (Double.times t Double.point8) = false) as -> by (apply gt_false; lra).
  reflexivity.
Qed.

(** C5, amended. For a threshold [t] of at least three times the smallest
    positive double, which leaves out only the two smallest positive
    doubles, a reading equal to [t] makes the memory probe and the CPU probe
    answer warning, and a reading equal to the double that [t * 0.8]
    evaluates to makes them answer healthy. *)
Theorem threshold_boundaries_binary64 (t : Q) (w : W)
    (Ht : (3 * Double.minSubnormal <= t)%Q) :
  let memory := inject_Z (Memory.percentage (getMemoryMetrics w)) in
  let cpu := Cpu.usage (getCpuMetrics w) in
  ((memory == t)%Q ->
     statusOf (CustomProbe.check (BuiltInProbesDouble.createMemoryProbe (Some t)) w)
     = Some warning) /\
  ((memory == Double.times t Double.point8)%Q ->
     statusOf (CustomProbe.check (BuiltInProbesDouble.createMemoryProbe (Some t)) w)
     = Some healthy) /\
  ((cpu == t)%Q ->
     statusOf (CustomProbe.check (BuiltInProbesDouble.createCpuProbe (Some t)) w)
     = Some warning) /\
  ((cpu == Double.times t Double.point8)%Q ->
     statusOf (CustomProbe.check (BuiltInProbesDouble.createCpuProbe (Some t)) w)
     = Some healthy).
Proof.
  intros memory cpu.
  pose proof (memoryProbeDouble_status (Some t) w) as Hm.
  pose proof (cpuProbeDouble_status (Some t) w) as Hc.
  cbv zeta in Hm, Hc. fold memory in Hm. fold cpu in Hc. simpl default in Hm, Hc.
  rewrite Hm, Hc. clear Hm Hc.
  repeat split; intros Heq; f_equal;
    first [by apply band_at_threshold | by apply band_at_product].
Qed.

End Boundary.

(** C5, the claim as written, fails in three ways.  With the threshold
    73.6 and the CPU reading 58.88, which is 0.8 * 73.6 in decimals, the
    product [73.6 * 0.8] evaluates to the double just below the reading and
    the probe answers warning.  With the threshold 0 a reading of 0 is
    healthy.  With the smallest positive double as threshold the product
    rounds back to the threshold, and a reading equal to it is healthy. *)
Lemma boundary_readings_off_the_claim :
  let memoryProbe := BuiltInProbesDouble.createMemoryProbe (W := Readings.t)
                       (show := Readings.wholeToString) in
  let cpuProbe := BuiltInProbesDouble.createCpuProbe (W := Readings.t)
                    (show := Readings.wholeToString) in
  ((58.88 == 0.8 * 73.6)%Q /\
   (Double.times (Double.round 73.6%Q) Double.point8 < Double.round 58.88%Q)%Q /\
   statusOf (CustomProbe.check (cpuProbe (Some (Double.round 73.6%Q)))
               (Readings.at_ 0 (Double.round 58.88%Q))) = Some warning) /\
  (statusOf (CustomProbe.check (memoryProbe (Some 0%Q)) (Readings.at_ 0 0%Q))
   = Some healthy /\
   statusOf (CustomProbe.check (cpuProbe (Some 0%Q)) (Readings.at_ 0 0%Q))
   = Some healthy) /\
  ((Double.times Double.minSubnormal Double.point8 == Double.minSubnormal)%Q /\
   statusOf (CustomProbe.check (cpuProbe (Some Double.minSubnormal))
               (Readings.at_ 0 Double.minSubnormal)) = Some healthy).
Proof.
  cbv zeta. split; [| split].
  - split; [| split].
    + apply Qeq_bool_eq. vm_compute. reflexivity.
    + apply Qnot_le_lt. intros Hle. apply Qle_bool_iff in Hle.
      vm_compute in Hle. discriminate Hle.
    + rewrite cpuProbeDouble_status. vm_compute. reflexivity.
  - split.
    + rewrite memoryProbeDouble_status. vm_compute. reflexivity.
    + rewrite cpuProbeDouble_status. vm_compute. reflexivity.
  - split.
    + apply Qeq_bool_eq. vm_compute. reflexivity.
    + rewrite cpuProbeDouble_status. vm_compute. reflexivity.
Qed.

Lemma threshold_boundaries_binary64_at_80 :
  let memoryProbe := BuiltInProbesDouble.createMemoryProbe (W := Readings.t)
                       (show := Readings.wholeToString) (Some 80%Q) in
  let cpuProbe := BuiltInProbesDouble.createCpuProbe (W := Readings.t)
                    (show := Readings.wholeToString) (Some 80%Q) in
  (3 * Double.minSubnormal <= 80)%Q /\
  (Double.times 80 Double.point8 == 64)%Q /\
  statusOf (CustomProbe.check memoryProbe (Readings.at_ 80 80%Q)) = Some warning /\
  statusOf (CustomProbe.check cpuProbe (Readings.at_ 80 80%Q)) = Some warning /\
  statusOf (CustomProbe.check memoryProbe (Readings.at_ 64 64%Q)) = Some healthy /\
  statusOf (CustomProbe.check cpuProbe (Readings.at_ 64 64%Q)) = Some healthy.
Proof.
  intros memoryProbe cpuProbe.
  assert (Ht : (3 * Double.minSubnormal <= 80)%Q)
    by (apply Qle_bool_iff; vm_compute; reflexivity).
  assert (Hproduct : (Double.times 80 Double.point8 == 64)%Q)
    by (apply Qeq_bool_eq; vm_compute; reflexivity).
  split; [exact Ht |]. split; [exact Hproduct |].
  destruct (threshold_boundaries_binary64 (show := Readings.wholeToString)
              80%Q (Readings.at_ 80 80%Q) Ht) as (Hm & _ & Hc & _).
  destruct (threshold_boundaries_binary64 (show := Readings.wholeToString)
              80%Q (Readings.at_ 64 64%Q) Ht) as (_ & Hm' & _ & Hc').
  split; [apply Hm; reflexivity |]. split; [apply Hc; reflexivity |].
  split; [apply Hm' | apply Hc']; simpl; symmetry; exact Hproduct.
Defined.
